(** * nova-s3: the payment-gated lease protocol of the storage server

    A shallow embedding of the server side of nova-s3
    (server/src/index.ts, server/src/middleware/payment.ts,
    server/src/auth-store.ts, server/src/routes/storage.ts and the
    legacy S3 client's [generateFileKey]) and the properties of its
    request pipeline.

    Conventions of the embedding.
    - A JavaScript string is a [string]: one character per code unit.
      Header values reach the handlers as Latin-1 byte strings, which this
      represents exactly; file names and path parameters are taken over
      the same alphabet.
    - An instant is a [Z], the milliseconds since the epoch. The ledger
      stores instants as the text [toISOString] prints; for the years
      0000 to 9999 that text is fixed-width, [new Date(text)] reads it
      back and its lexicographic order is the order of the instants, so a
      stored column is represented by the instant it denotes.
    - An exception is an explicit [Throws] outcome; a handler is a
      function from the state before the request to the state after it
      and the response.
    - What lies outside the repository (the clock, the time zone, viem's
      [verifyMessage], the blob store, the payment facilitator) is a field
      of [World]; each request is served in a world of its own. *)

From Stdlib Require Import ZArith String Ascii DecimalString Bool Lia.
From Stdlib Require Import List Sorting.Sorted.
From stdpp Require Import gmap strings list sorting fin_maps.

Local Open Scope string_scope.

(** ** JavaScript primitives *)

Module JS.

(** The result of evaluating an expression that may throw. *)
Inductive Outcome (A : Type) : Type :=
| Returns (a : A)
| Throws.
Arguments Returns {A} a.
Arguments Throws {A}.

Definition inRange (lo hi n : N) : bool := ((lo <=? n) && (n <=? hi))%N.

(** [String.prototype.toLowerCase] on one Latin-1 code unit: A-Z and
    the accented capitals U+00C0..U+00DE (the multiplication sign
    U+00D7 apart) move up by 32. *)
Definition toLowerCaseUnit (c : ascii) : ascii :=
  let n := N_of_ascii c in
  if inRange 65 90 n || (inRange 192 222 n && negb (n =? 215)%N)
  then ascii_of_N (n + 32)
  else c.

Fixpoint toLowerCase (s : string) : string :=
  match s with
  | EmptyString => EmptyString
  | String c rest => String (toLowerCaseUnit c) (toLowerCase rest)
  end.

(** [s.startsWith(p)] *)
Definition startsWith (s p : string) : bool := String.prefix p s.

(** [s.endsWith(p)] *)
Definition endsWith (s p : string) : bool :=
  let n := String.length s in
  let k := String.length p in
  (k <=? n)%nat && String.eqb (String.substring (n - k) k s) p.

(** [s.slice(0, -k)] *)
Definition sliceDropLast (k : nat) (s : string) : string :=
  String.substring 0 (String.length s - k) s.

(** [s.split(sep)] for a one-character separator. *)
Fixpoint split (sep : ascii) (s : string) : list string :=
  match s with
  | EmptyString => [EmptyString]
  | String c rest =>
      if Ascii.eqb c sep then EmptyString :: split sep rest
      else match split sep rest with
           | [] => [String c EmptyString]
           | piece :: pieces => String c piece :: pieces
           end
  end.

(** [s.split(sep, limit)] *)
Definition splitLimit (sep : ascii) (limit : nat) (s : string) : list string :=
  take limit (split sep s).

(** The class [[a-zA-Z0-9._-]] of the file-name regular expression. *)
Definition isAlphanumeric (c : ascii) : bool :=
  let n := N_of_ascii c in
  inRange 97 122 n || inRange 65 90 n || inRange 48 57 n.

Definition isSafeFilenameUnit (c : ascii) : bool :=
  isAlphanumeric c
  || Ascii.eqb c "."%char || Ascii.eqb c "_"%char || Ascii.eqb c "-"%char.

(** [s.replace(/[^...]/g, "_")] for a class given by [keep]. *)
Fixpoint replaceOutside (keep : ascii -> bool) (s : string) : string :=
  match s with
  | EmptyString => EmptyString
  | String c rest =>
      String (if keep c then c else "_"%char) (replaceOutside keep rest)
  end.

(** A template literal's rendering of an integral number. *)
Definition numberToString (n : Z) : string :=
  NilZero.string_of_int (Z.to_int n).

(** [!value] for a header or field that is a string or [undefined]. *)
Definition falsy (v : option string) : bool :=
  match v with
  | None => true
  | Some s => String.eqb s ""
  end.

(** [value || fallback] on strings. *)
Definition orElse (v fallback : string) : string :=
  if String.eqb v "" then fallback else v.

End JS.

Import JS.

(** ** Dates *)

Definition msPerDay : Z := 86400000.

(** The time zone of the server process: the offset of local time from
    UTC, read at a UTC instant and at a local instant (ECMAScript's
    [LocalTime] and [UTC]). *)
Record TimeZone : Type := {
  offsetAtUTC : Z -> Z;
  offsetAtLocal : Z -> Z;
}.

Definition fixedZone (offset : Z) : TimeZone :=
  {| offsetAtUTC := fun _ => offset; offsetAtLocal := fun _ => offset |}.

Definition utcZone : TimeZone := fixedZone 0.

(** [d.setDate(d.getDate() + days)]: the local calendar date moves by
    [days] and the local time of day is kept, so the local instant moves
    by [days] whole days and is then read back as a UTC instant. *)
Definition addDays (tz : TimeZone) (t days : Z) : Z :=
  let localT := (t + offsetAtUTC tz t)%Z in
  let moved := (localT + days * msPerDay)%Z in
  (moved - offsetAtLocal tz moved)%Z.

(** ** The lease ledger (server/src/auth-store.ts) *)

Record FileRecord : Type := {
  fileKey : string;
  ownerAddress : string;
  originalFilename : string;
  contentType : string;
  sizeBytes : Z;   (* the column [size] *)
  uploadedAt : Z;
  expiresAt : Z;
}.

(** The [files] table: [file_key] is its primary key. *)
Abbreviation Database := (gmap string FileRecord).

Module AuthStore.

(** [ORDER BY uploaded_at DESC] *)
Definition uploadedAfter (a b : FileRecord) : Prop :=
  (uploadedAt b <= uploadedAt a)%Z.

#[export] Instance uploadedAfter_dec : RelDecision uploadedAfter.
Proof. intros a b. unfold uploadedAfter. apply _. Defined.

#[export] Instance uploadedAfter_total : Total uploadedAfter.
Proof. intros a b. unfold uploadedAfter. lia. Qed.

#[export] Instance uploadedAfter_trans : Transitive uploadedAfter.
Proof. intros a b c. unfold uploadedAfter. lia. Qed.

Definition withOwner (owner : string) (r : FileRecord) : FileRecord :=
  {| fileKey := fileKey r; ownerAddress := owner;
     originalFilename := originalFilename r; contentType := contentType r;
     sizeBytes := sizeBytes r; uploadedAt := uploadedAt r; expiresAt := expiresAt r |}.

Definition withExpiresAt (t : Z) (r : FileRecord) : FileRecord :=
  {| fileKey := fileKey r; ownerAddress := ownerAddress r;
     originalFilename := originalFilename r; contentType := contentType r;
     sizeBytes := sizeBytes r; uploadedAt := uploadedAt r; expiresAt := t |}.

(** [INSERT INTO files ...] with the owner lowercased; the primary key
    makes the statement throw when the key is already there. *)
Definition recordUpload (db : Database) (record : FileRecord) : Outcome Database :=
  match db !! fileKey record with
  | Some _ => Throws
  | None =>
      Returns (<[fileKey record := withOwner (toLowerCase (ownerAddress record)) record]> db)
  end.

Definition getFile (db : Database) (key : string) : option FileRecord :=
  db !! key.

Definition isOwner (db : Database) (key address : string) : bool :=
  match getFile db key with
  | None => false
  | Some record =>
      String.eqb (toLowerCase (ownerAddress record)) (toLowerCase address)
  end.

(** [serverTime > expiresAt]; an absent key counts as expired. *)
Definition isExpired (serverTime : Z) (db : Database) (key : string) : bool :=
  match getFile db key with
  | None => true
  | Some record => (expiresAt record <? serverTime)%Z
  end.

Definition rows (db : Database) : list FileRecord :=
  (map_to_list db).*2.

Definition ownedBy (owner : string) (r : FileRecord) : Prop :=
  ownerAddress r = owner.

#[export] Instance ownedBy_dec owner r : Decision (ownedBy owner r).
Proof. unfold ownedBy. apply _. Defined.

(** [SELECT ... WHERE owner_address = ? ORDER BY uploaded_at DESC],
    asked with the lowercased address. *)
Definition getFilesByOwner (db : Database) (owner : string) : list FileRecord :=
  merge_sort uploadedAfter (filter (ownedBy (toLowerCase owner)) (rows db)).

(** [DELETE FROM files WHERE expires_at < datetime('now')]. The column
    holds [YYYY-MM-DDTHH:MM:SS.sssZ] and [datetime('now')] is
    [YYYY-MM-DD HH:MM:SS]; the comparison is textual, so after equal
    dates it meets ['T'] against [' '] and a row goes only when its
    expiry date is an earlier UTC day than today. *)
Definition sweepable (serverTime : Z) (r : FileRecord) : bool :=
  (expiresAt r / msPerDay <? serverTime / msPerDay)%Z.

Definition cleanupExpiredRecords (serverTime : Z) (db : Database) : Database * nat :=
  let kept := filter (fun kr => sweepable serverTime kr.2 = false) db in
  (kept, (size db - size kept)%nat).

(** [DELETE FROM files WHERE file_key = ?]; answers whether a row went. *)
Definition deleteRecord (db : Database) (key : string) : Database * bool :=
  (delete key db, bool_decide (is_Some (db !! key))).

(** [UPDATE files SET expires_at = ? WHERE file_key = ?], the statement
    the renew route runs on the store's connection. *)
Definition updateExpiresAt (db : Database) (newExpires : Z) (key : string) : Database :=
  alter (withExpiresAt newExpires) key db.

End AuthStore.

Import AuthStore.

(** ** Configuration, the outside world, requests and responses *)

(** server/src/config.ts, the fields the request pipeline reads. *)
Record Config : Type := {
  maxSizeBytes : Z;
  expirationDays : Z;
  defaultPrice : string;
  network : string;
  receivingAddress : string;
  paymentTokenAddress : string;
  paymentTokenName : string;
}.

(** The defaults of config.ts for every optional variable. *)
Definition defaultConfig (payTo asset : string) : Config :=
  {| maxSizeBytes := 1000 * 1000 * 1000;
     expirationDays := 10;
     defaultPrice := "20000";
     network := "eip155:324705682";
     receivingAddress := payTo;
     paymentTokenAddress := asset;
     paymentTokenName := "Bridged USDC (SKALE Bridge)" |}.

Record World : Type := {
  (** the n-th reading of the server clock while the request is served *)
  clock : nat -> Z;
  timeZone : TimeZone;
  (** viem's [verifyMessage address message signature] *)
  verifyMessage : string -> string -> string -> Outcome bool;
  (** the blob store behind [novaS3Client] *)
  s3_put : string -> list Byte.byte -> string -> Outcome bool;
  s3_get : string -> Outcome (option (list Byte.byte));
  s3_delete : string -> Outcome bool;
  (** the facilitator's verdict on a payment proof *)
  settles : string -> bool;
}.

(** HEAD and OPTIONS are answered by the framework and by the CORS
    middleware ahead of this pipeline. *)
Inductive Method : Type := GET | POST | PUT | DELETE | PATCH.

#[export] Instance Method_eq_dec : EqDecision Method.
Proof. solve_decision. Defined.

Record UploadedFile : Type := {
  name : string;
  type : string;
  content : list Byte.byte;
}.

Definition fileSize (f : UploadedFile) : Z := Z.of_nat (length (content f)).

Record Request : Type := {
  method : Method;
  path : string;
  walletAddressHeader : option string;   (* X-Wallet-Address *)
  signatureHeader : option string;       (* X-Signature *)
  paymentHeader : option string;         (* the payment proof *)
  (** [await c.req.formData()] and then [formData.get("file")] when it is
      a [File] *)
  formData : Outcome (option UploadedFile);
}.

Record PaymentChallenge : Type := {
  scheme : string;
  challengeNetwork : string;
  payTo : string;
  amount : string;
  asset : string;
  extraName : string;
  extraVersion : string;
}.

Inductive ErrorKind : Type :=
| MissingWalletAddress         (* "Missing X-Wallet-Address header" *)
| MissingSignature             (* "Missing X-Signature header" *)
| NoFileProvided               (* "No file provided" *)
| FileTooLarge                 (* "File too large. Maximum size is ..." *)
| UploadToS3Failed             (* "Failed to upload to S3" *)
| UploadFailed                 (* "Failed to upload file" *)
| InvalidSignature             (* "Invalid signature" *)
| SignatureVerificationFailed  (* "Signature verification failed" *)
| FileNotFound                 (* "File not found" *)
| AccessDenied                 (* "Access denied: not the owner" *)
| FileExpired                  (* "File has expired" *)
| FileNotFoundInStorage        (* "File not found in storage" *)
| DownloadFailed               (* "Failed to download file" *)
| DeleteFailed                 (* "Failed to delete file" *)
| NoSuchRoute.                 (* the router's own 404 *)

Record FileInfo : Type := {
  infoFileKey : string;
  infoFilename : string;
  infoContentType : string;
  infoSize : Z;
  infoUploadedAt : Z;
  infoExpiresAt : Z;
}.

Definition toFileInfo (r : FileRecord) : FileInfo :=
  {| infoFileKey := fileKey r; infoFilename := originalFilename r;
     infoContentType := contentType r; infoSize := sizeBytes r;
     infoUploadedAt := uploadedAt r; infoExpiresAt := expiresAt r |}.

Inductive Body : Type :=
| ErrorBody (error : ErrorKind)
| ChallengeBody (challenge : PaymentChallenge)
| UploadBody (key : string) (bytes uploaded expires : Z)
| DownloadBody (data : list Byte.byte) (ctype filename : string) (expires : Z)
| ListBody (files : list FileInfo) (total : nat)
| InfoBody (info : FileInfo) (expired : bool)
| DeleteBody (key : string)
| RenewBody (key : string) (oldExpires newExpires : Z)
| ServiceBody
| HealthBody (timestamp : Z).

Record Response : Type := {
  status : Z;
  body : Body;
}.

Definition json (b : Body) (code : Z) : Response :=
  {| status := code; body := b |}.

Definition failure (e : ErrorKind) (code : Z) : Response :=
  json (ErrorBody e) code.

(** ** Process state *)

(** What the server process holds between requests: the ledger and the
    module-level set of payment.ts. *)
Record State : Type := {
  db : Database;
  paidAddresses : gset string;
}.

Definition initialState : State := {| db := ∅; paidAddresses := ∅ |}.

(** The rest of a request's pipeline, as a middleware sees it. *)
Definition Handler : Type := State -> State * Response.

(** A route of storage.ts only has the ledger in scope. *)
Definition onLedger (h : Database -> Database * Response) : Handler :=
  fun st => let (d, res) := h (db st) in
            ({| db := d; paidAddresses := paidAddresses st |}, res).

(** ** The payment gate (server/src/middleware/payment.ts) *)

Module Payment.

Definition defaultPricingFunction (cfg : Config) : string := defaultPrice cfg.

Record RouteConfig : Type := {
  accepts : list PaymentChallenge;
  description : string;
}.

Definition createPaymentRoutes (cfg : Config) (price : string)
  : list (string * RouteConfig) :=
  let paymentConfig :=
    {| scheme := "exact";
       challengeNetwork := network cfg;
       payTo := receivingAddress cfg;
       amount := price;
       asset := paymentTokenAddress cfg;
       extraName := paymentTokenName cfg;
       extraVersion := "2" |} in
  [ ("POST /upload",
     {| accepts := [paymentConfig];
        description := "Upload file to S3 storage (10-day expiration)" |});
    ("POST /renew/*",
     {| accepts := [paymentConfig];
        description := "Renew file expiration (adds 10 days)" |}) ].

Record ProtectedPath : Type := {
  pattern : string;
  isWildcard : bool;
  prefix : string;
}.

(** The body of the [map] over [Object.keys(routes)]; [split] leaves no
    second piece when the key has no space, and [endsWith] then throws. *)
Definition protectedPath (key : string) : Outcome ProtectedPath :=
  match splitLimit " " 2 key !! 1%nat with
  | None => Throws
  | Some p =>
      Returns {| pattern := p;
                 isWildcard := endsWith p "/*";
                 prefix := if endsWith p "/*" then sliceDropLast 2 p else p |}
  end.

Fixpoint protectedPathsOf (keys : list string) : Outcome (list ProtectedPath) :=
  match keys with
  | [] => Returns []
  | key :: rest =>
      match protectedPath key, protectedPathsOf rest with
      | Returns p, Returns ps => Returns (p :: ps)
      | _, _ => Throws
      end
  end.

Definition isProtectedPath (protectedPaths : list ProtectedPath)
    (requestPath : string) : bool :=
  existsb (fun p => if isWildcard p
                    then startsWith requestPath (prefix p)
                    else String.eqb requestPath (pattern p))
          protectedPaths.

Definition methodName (m : Method) : string :=
  match m with
  | GET => "GET" | POST => "POST" | PUT => "PUT" | DELETE => "DELETE"
  | PATCH => "PATCH"
  end.

(** Modelled from the spec: the route table of the @x402/hono package,
    which the repository imports and does not contain. A key is a verb
    and a path pattern; the spec prices [POST /upload] and
    [POST /renew/{key}], so a trailing [/*] stands for any rest of the
    path after the slash. *)
Definition x402RouteMatches (key : string) (c : Request) : bool :=
  match splitLimit " " 2 key with
  | [verb; pat] =>
      String.eqb verb (methodName (method c))
      && (if endsWith pat "/*"
          then startsWith (path c) (sliceDropLast 1 pat)
          else String.eqb (path c) pat)
  | _ => false
  end.

(** Modelled from the spec: [paymentMiddleware(routes, resourceServer)]
    of the @x402/hono package, which the repository imports and does not
    contain. For a priced route: if unpaid, emit the challenge (402) and
    halt; with a proof, have the facilitator verify the settlement, and
    hand over to the rest of the pipeline only when it is settled. Any
    other request passes through. *)
Definition paymentMiddleware (W : World) (routes : list (string * RouteConfig))
    (c : Request) (next : Handler) : Handler :=
  fun st =>
    match find (fun route => x402RouteMatches route.1 c) routes with
    | None => next st
    | Some (_, routeConfig) =>
        let challenge := json (match accepts routeConfig with
                               | ch :: _ => ChallengeBody ch
                               | [] => ErrorBody NoSuchRoute
                               end) 402 in
        match paymentHeader c with
        | None => (st, challenge)
        | Some proof => if settles W proof then next st else (st, challenge)
        end
    end.

(** The closure [middleware] of [createPaymentMiddleware], with the
    two variables it captures made explicit. *)
Definition middleware (protectedPaths : list ProtectedPath)
    (paidAwareMiddleware : Request -> Handler -> Handler)
    (c : Request) (next : Handler) : Handler :=
  fun st =>
    if isProtectedPath protectedPaths (path c)
    then paidAwareMiddleware c next st
    else next st.

(** What [createPaymentMiddleware] returns. *)
Record PaymentMiddleware : Type := {
  pm_middleware : Request -> Handler -> Handler;
  pm_recordPayment : string -> State -> State;
  pm_isAddressPaid : string -> State -> bool;
}.

Definition createPaymentMiddleware (W : World) (cfg : Config)
  : Outcome PaymentMiddleware :=
  let routes := createPaymentRoutes cfg (defaultPricingFunction cfg) in
  let paidAwareMiddleware := paymentMiddleware W routes in
  match protectedPathsOf routes.*1 with
  | Throws => Throws
  | Returns protectedPaths =>
      Returns
        {| pm_middleware := middleware protectedPaths paidAwareMiddleware;
           pm_recordPayment := fun address st =>
             {| db := db st;
                paidAddresses := {[ toLowerCase address ]} ∪ paidAddresses st |};
           pm_isAddressPaid := fun address st =>
             bool_decide (toLowerCase address ∈ paidAddresses st) |}
  end.

Definition hasPaid (address : string) (st : State) : bool :=
  bool_decide (toLowerCase address ∈ paidAddresses st).

Definition recordPaid (address : string) (st : State) : State :=
  {| db := db st;
     paidAddresses := {[ toLowerCase address ]} ∪ paidAddresses st |}.

End Payment.

(** ** The routes (server/src/routes/storage.ts) *)

Module Storage.

(** A header the handler goes on with: present and not empty. *)
Definition present (v : option string) : option string :=
  match v with
  | Some s => if falsy v then None else Some s
  | None => None
  end.

(** The five signed requests and the message each one signs. *)
Inductive SignedOperation : Type :=
| ReadFile | ListFiles | FileInformation | DeleteFile | RenewFile.

Definition canonicalMessage (op : SignedOperation) (fileKey : string) : string :=
  match op with
  | ReadFile => fileKey
  | ListFiles => "list-files"
  | FileInformation => fileKey
  | DeleteFile => "delete:" ++ fileKey
  | RenewFile => "renew:" ++ fileKey
  end.

(** The [try { verifyMessage ... } catch] block every signed route opens
    with: the response it returns, if it returns one. *)
Definition signatureRejection (W : World)
    (walletAddress message signature : string) : option Response :=
  match verifyMessage W walletAddress message signature with
  | Returns true => None
  | Returns false => Some (failure InvalidSignature 401)
  | Throws => Some (failure SignatureVerificationFailed 401)
  end.

Definition generateKey (walletAddress : string) (now : Z) (filename : string) : string :=
  toLowerCase walletAddress ++ "/" ++ numberToString now ++ "-"
    ++ replaceOutside isSafeFilenameUnit filename.

(** POST /upload *)
Definition upload (W : World) (cfg : Config) (c : Request) (d : Database)
  : Database * Response :=
  match present (walletAddressHeader c) with
  | None => (d, failure MissingWalletAddress 400)
  | Some walletAddress =>
  match formData c with
  | Throws => (d, failure UploadFailed 500)
  | Returns None => (d, failure NoFileProvided 400)
  | Returns (Some file) =>
  if (maxSizeBytes cfg <? fileSize file)%Z then (d, failure FileTooLarge 400) else
  let fileKey := generateKey walletAddress (clock W 0) (name file) in
  let mime := orElse (type file) "application/octet-stream" in
  match s3_put W fileKey (content file) mime with
  | Throws => (d, failure UploadFailed 500)
  | Returns false => (d, failure UploadToS3Failed 500)
  | Returns true =>
  let uploadedAt := clock W 1 in
  let expiresAt := addDays (timeZone W) uploadedAt (expirationDays cfg) in
  match recordUpload d {| fileKey := fileKey;
                          ownerAddress := walletAddress;
                          originalFilename := name file;
                          contentType := mime;
                          sizeBytes := fileSize file;
                          uploadedAt := uploadedAt;
                          expiresAt := expiresAt |} with
  | Throws => (d, failure UploadFailed 500)
  | Returns d' =>
      (d', json (UploadBody fileKey (fileSize file) uploadedAt expiresAt) 200)
  end end end end.

(** GET /file/:key *)
Definition download (W : World) (fileKey : string) (c : Request) (d : Database)
  : Database * Response :=
  match present (walletAddressHeader c) with
  | None => (d, failure MissingWalletAddress 400)
  | Some walletAddress =>
  match present (signatureHeader c) with
  | None => (d, failure MissingSignature 400)
  | Some signature =>
  match signatureRejection W walletAddress (canonicalMessage ReadFile fileKey) signature with
  | Some rejection => (d, rejection)
  | None =>
  match getFile d fileKey with
  | None => (d, failure FileNotFound 404)
  | Some record =>
  if negb (isOwner d fileKey walletAddress) then (d, failure AccessDenied 403) else
  if isExpired (clock W 0) d fileKey
  then ((deleteRecord d fileKey).1, failure FileExpired 410) else
  match s3_get W fileKey with
  | Throws => (d, failure DownloadFailed 500)
  | Returns None => ((deleteRecord d fileKey).1, failure FileNotFoundInStorage 404)
  | Returns (Some buffer) =>
      (d, json (DownloadBody buffer (contentType record)
                  (originalFilename record) (expiresAt record)) 200)
  end end end end end.

(** The filter of GET /files: [serverTime <= expiresAt]. *)
Definition activeFiles (serverTime : Z) (files : list FileRecord) : list FileRecord :=
  filter (fun file => (serverTime <= expiresAt file)%Z) files.

(** GET /files *)
Definition listFiles (W : World) (c : Request) (d : Database)
  : Database * Response :=
  match present (walletAddressHeader c) with
  | None => (d, failure MissingWalletAddress 400)
  | Some walletAddress =>
  match present (signatureHeader c) with
  | None => (d, failure MissingSignature 400)
  | Some signature =>
  match signatureRejection W walletAddress (canonicalMessage ListFiles "") signature with
  | Some rejection => (d, rejection)
  | None =>
  let files := getFilesByOwner d walletAddress in
  let active := activeFiles (clock W 0) files in
  (d, json (ListBody (toFileInfo <$> active) (length active)) 200)
  end end end.

(** GET /file-info/:key *)
Definition fileInfo (W : World) (fileKey : string) (c : Request) (d : Database)
  : Database * Response :=
  match present (walletAddressHeader c) with
  | None => (d, failure MissingWalletAddress 400)
  | Some walletAddress =>
  match present (signatureHeader c) with
  | None => (d, failure MissingSignature 400)
  | Some signature =>
  match signatureRejection W walletAddress (canonicalMessage FileInformation fileKey) signature with
  | Some rejection => (d, rejection)
  | None =>
  match getFile d fileKey with
  | None => (d, failure FileNotFound 404)
  | Some record =>
  if negb (isOwner d fileKey walletAddress) then (d, failure AccessDenied 403) else
  (d, json (InfoBody (toFileInfo record) (isExpired (clock W 0) d fileKey)) 200)
  end end end end.

(** DELETE /file/:key *)
Definition deleteFile (W : World) (fileKey : string) (c : Request) (d : Database)
  : Database * Response :=
  match present (walletAddressHeader c) with
  | None => (d, failure MissingWalletAddress 400)
  | Some walletAddress =>
  match present (signatureHeader c) with
  | None => (d, failure MissingSignature 400)
  | Some signature =>
  match signatureRejection W walletAddress (canonicalMessage DeleteFile fileKey) signature with
  | Some rejection => (d, rejection)
  | None =>
  match getFile d fileKey with
  | None => (d, failure FileNotFound 404)
  | Some record =>
  if negb (isOwner d fileKey walletAddress) then (d, failure AccessDenied 403) else
  match s3_delete W fileKey with
  | Throws => (d, failure DeleteFailed 500)
  | Returns _ => ((deleteRecord d fileKey).1, json (DeleteBody fileKey) 200)
  end end end end end.

(** POST /renew/:key *)
Definition renew (W : World) (fileKey : string) (c : Request) (d : Database)
  : Database * Response :=
  match present (walletAddressHeader c) with
  | None => (d, failure MissingWalletAddress 400)
  | Some walletAddress =>
  match present (signatureHeader c) with
  | None => (d, failure MissingSignature 400)
  | Some signature =>
  match signatureRejection W walletAddress (canonicalMessage RenewFile fileKey) signature with
  | Some rejection => (d, rejection)
  | None =>
  match getFile d fileKey with
  | None => (d, failure FileNotFound 404)
  | Some record =>
  if negb (isOwner d fileKey walletAddress) then (d, failure AccessDenied 403) else
  let serverTime := clock W 0 in
  let oldExpires := expiresAt record in
  let newExpires := addDays (timeZone W) (Z.max serverTime oldExpires) 10 in
  (updateExpiresAt d newExpires fileKey,
   json (RenewBody fileKey (expiresAt record) newExpires) 200)
  end end end end.

End Storage.

(** ** The legacy S3 client's key generator *)

Module S3StorageClient.

(** [generateFileKey], with the clock reading it takes made explicit. *)
Definition generateFileKey (timestamp : Z) (ownerAddress originalFilename : string) : string :=
  let sanitizedFilename := replaceOutside isSafeFilenameUnit originalFilename in
  toLowerCase ownerAddress ++ "/" ++ numberToString timestamp ++ "-" ++ sanitizedFilename.

End S3StorageClient.

(** ** The application (server/src/index.ts) *)

Module Server.

Import Payment Storage.

(** A route pattern [prefix:key{.+}]: the rest of the path, not empty. *)
Definition param (routePrefix requestPath : string) : option string :=
  if startsWith requestPath routePrefix
  then
    let n := String.length routePrefix in
    let rest := String.substring n (String.length requestPath - n) requestPath in
    if String.eqb rest "" then None else Some rest
  else None.

Definition notFound : Handler := fun st => (st, failure NoSuchRoute 404).

(** The routes registered on the application, [storage] mounted at the
    root after the two of index.ts. *)
Definition routes (W : World) (cfg : Config) (c : Request) : Handler :=
  match method c with
  | GET =>
      if String.eqb (path c) "/" then fun st => (st, json ServiceBody 200)
      else if String.eqb (path c) "/health"
      then fun st => (st, json (HealthBody (clock W 0)) 200)
      else if String.eqb (path c) "/files" then onLedger (listFiles W c)
      else match param "/file/" (path c), param "/file-info/" (path c) with
           | Some fileKey, _ => onLedger (download W fileKey c)
           | None, Some fileKey => onLedger (fileInfo W fileKey c)
           | None, None => notFound
           end
  | POST =>
      if String.eqb (path c) "/upload" then onLedger (upload W cfg c)
      else match param "/renew/" (path c) with
           | Some fileKey => onLedger (renew W fileKey c)
           | None => notFound
           end
  | DELETE =>
      match param "/file/" (path c) with
      | Some fileKey => onLedger (deleteFile W fileKey c)
      | None => notFound
      end
  | PUT | PATCH => notFound
  end.

(** [main]: the payment middleware is created and put in front of every
    route. Creating it throws when a route key is malformed. *)
Definition main (W : World) (cfg : Config) : Outcome (Request -> Handler) :=
  match createPaymentMiddleware W cfg with
  | Throws => Throws
  | Returns pm => Returns (fun c => pm_middleware pm c (routes W cfg c))
  end.

(** The protected paths [createPaymentMiddleware] computes from the keys
    of its route table, which do not depend on the configuration. *)
Definition protectedPaths : list ProtectedPath :=
  match protectedPathsOf ["POST /upload"; "POST /renew/*"] with
  | Returns ps => ps
  | Throws => []
  end.

(** The application [main] serves (see [main_serves_fetch]). *)
Definition fetch (W : World) (cfg : Config) (c : Request) : Handler :=
  middleware protectedPaths
    (paymentMiddleware W (createPaymentRoutes cfg (defaultPricingFunction cfg)))
    c (routes W cfg c).

(** The hourly cleanup job. *)
Definition cleanupJob (serverTime : Z) (st : State) : State :=
  {| db := (cleanupExpiredRecords serverTime (db st)).1;
     paidAddresses := paidAddresses st |}.

(** The states of the running server: it starts with an empty ledger
    and moves by serving a request, by the cleanup job, or by a call of
    one of the payment module's exported recorders. *)
Inductive reachable : State -> Prop :=
| reachable_start : reachable initialState
| reachable_request W cfg c st :
    reachable st -> reachable (fetch W cfg c st).1
| reachable_cleanup serverTime st :
    reachable st -> reachable (cleanupJob serverTime st)
| reachable_recordPaid address st :
    reachable st -> reachable (recordPaid address st).

End Server.

Import Payment Storage Server.

(** ** Vocabulary of the properties *)

(** A handler that reads and writes the ledger only: its response and
    the ledger it leaves are functions of the ledger it finds, and it
    leaves the set of paid addresses as it was. *)
Definition ledgerOnly (h : Handler) : Prop :=
  forall st,
    paidAddresses (h st).1 = paidAddresses st
    /\ forall st', db st = db st' ->
         (h st).2 = (h st').2 /\ db (h st).1 = db (h st').1.

(** The requests the x402 route table prices. *)
Definition priced (c : Request) : bool :=
  bool_decide (method c = POST)
  && (String.eqb (path c) "/upload" || startsWith (path c) "/renew/").

(** No proof attached, or one the facilitator does not settle. *)
Definition unsettled (W : World) (c : Request) : bool :=
  match paymentHeader c with
  | None => true
  | Some proof => negb (settles W proof)
  end.

Definition challengeOf (cfg : Config) : PaymentChallenge :=
  {| scheme := "exact";
     challengeNetwork := network cfg;
     payTo := receivingAddress cfg;
     amount := defaultPrice cfg;
     asset := paymentTokenAddress cfg;
     extraName := paymentTokenName cfg;
     extraVersion := "2" |}.

(** ** Sample data *)

Module Sample.

(** A world on UTC in which every signature verifies, the blob store
    answers and the facilitator settles every proof. *)
Definition world : World :=
  {| clock := fun n => (1700000000000 + Z.of_nat n)%Z;
     timeZone := utcZone;
     verifyMessage := fun _ _ _ => Returns true;
     s3_put := fun _ _ _ => Returns true;
     s3_get := fun _ => Returns (Some []);
     s3_delete := fun _ => Returns true;
     settles := fun _ => true |}.

Definition config : Config := defaultConfig "0x00000000000000000000000000000000000000fe" "0x00000000000000000000000000000000000000ed".

Definition alice : string := "0xAAaa00000000000000000000000000000000AAaa".
Definition bob : string := "0xBBbb00000000000000000000000000000000BBbb".

Definition helloKey : string :=
  "0xaaaa00000000000000000000000000000000aaaa/1699999999000-hello.txt".

Definition helloRecord : FileRecord :=
  {| fileKey := helloKey;
     ownerAddress := "0xaaaa00000000000000000000000000000000aaaa";
     originalFilename := "hello.txt";
     contentType := "text/plain";
     sizeBytes := 5;
     uploadedAt := 1699999999000;
     expiresAt := 1699999999000 + 10 * msPerDay |}.

(** Alice holds one file; Bob's address is in the set of paid addresses. *)
Definition state : State :=
  {| db := {[ helloKey := helloRecord ]};
     paidAddresses := {[ toLowerCase bob ]} |}.

Definition request (m : Method) (p : string) (wallet signature payment : option string)
  : Request :=
  {| method := m; path := p;
     walletAddressHeader := wallet;
     signatureHeader := signature;
     paymentHeader := payment;
     formData := Returns None |}.

Definition helloFile : UploadedFile :=
  {| name := "hello.txt"; type := "text/plain";
     content := [Byte.x68; Byte.x65; Byte.x6c; Byte.x6c; Byte.x6f] |}.

Definition uploadRequest (wallet : string) (payment : option string) : Request :=
  {| method := POST; path := "/upload";
     walletAddressHeader := Some wallet;
     signatureHeader := None;
     paymentHeader := payment;
     formData := Returns (Some helloFile) |}.

End Sample.

(** ** Sample data for a longer lease *)

Module LongLease.

(** The server run with [FILE_EXPIRATION_DAYS=30]. *)
Definition config : Config :=
  {| maxSizeBytes := maxSizeBytes Sample.config;
     expirationDays := 30;
     defaultPrice := defaultPrice Sample.config;
     network := network Sample.config;
     receivingAddress := receivingAddress Sample.config;
     paymentTokenAddress := paymentTokenAddress Sample.config;
     paymentTokenName := paymentTokenName Sample.config |}.

(** Alice renews her file, signed and paid. *)
Definition renewal : Request :=
  Sample.request POST ("/renew/" ++ Sample.helloKey)
    (Some Sample.alice) (Some "0x5157") (Some "proof").

End LongLease.

(** ** The key format in the words of the specification *)

(** The key as the specification words it: the lowercased owner, a slash,
    the millisecond timestamp, a dash, and the file name with every
    character that is not alphanumeric replaced by an underscore. To be
    compared with [generateKey], which is taken from the upload route. *)
Definition keyFormatAsSpecified (owner : string) (timestamp : Z) (filename : string) : string :=
  toLowerCase owner ++ "/" ++ numberToString timestamp ++ "-"
    ++ replaceOutside isAlphanumeric filename.

(** ** Sample data for a key collision *)

Module Collision.

(** The key Alice's upload of [hello.txt] gets on the sample server. *)
Definition key : string :=
  "0xaaaa00000000000000000000000000000000aaaa/1700000000000-hello.txt".

(** A ledger that already holds that key. *)
Definition ledger : Database :=
  {[ key := {| fileKey := key;
               ownerAddress := "0xaaaa00000000000000000000000000000000aaaa";
               originalFilename := "hello.txt";
               contentType := "text/plain";
               sizeBytes := 5;
               uploadedAt := 1700000000000;
               expiresAt := 1700000000000 + 10 * msPerDay |} ]}.

Definition state : State := {| db := ledger; paidAddresses := ∅ |}.

(** The sample world with a blob store that fails every write. *)
Definition brokenStore : World :=
  {| clock := clock Sample.world;
     timeZone := timeZone Sample.world;
     verifyMessage := verifyMessage Sample.world;
     s3_put := fun _ _ _ => Throws;
     s3_get := s3_get Sample.world;
     s3_delete := s3_delete Sample.world;
     settles := settles Sample.world |}.

End Collision.

(** ** Sample data for a listing *)

Module Listing.

Definition aliceLower : string := "0xaaaa00000000000000000000000000000000aaaa".
Definition bobLower : string := "0xbbbb00000000000000000000000000000000bbbb".

Definition file (owner filename : string) (uploaded expires : Z) : FileRecord :=
  {| fileKey := owner ++ "/" ++ numberToString uploaded ++ "-" ++ filename;
     ownerAddress := owner;
     originalFilename := filename;
     contentType := "text/plain";
     sizeBytes := 5;
     uploadedAt := uploaded;
     expiresAt := expires |}.

(** Uploaded in this order; the sample clock reads 1700000000000. *)
Definition older : FileRecord := file aliceLower "a.txt" 1699500000000 1700364000000.
Definition lapsed : FileRecord := file aliceLower "b.txt" 1699000000000 1699864000000.
Definition bobs : FileRecord := file bobLower "c.txt" 1699800000000 1700664000000.
Definition newer : FileRecord := file aliceLower "d.txt" 1699900000000 1700764000000.

Definition ledger : Database :=
  <[fileKey newer := newer]>
    (<[fileKey bobs := bobs]>
       (<[fileKey lapsed := lapsed]> {[ fileKey older := older ]})).

Definition state : State := {| db := ledger; paidAddresses := ∅ |}.

Definition request : Request :=
  Sample.request GET "/files" (Some Sample.alice) (Some "0x5157") None.

End Listing.

(** ** The signed routes, taken together *)

(** The route a signed operation is served by. *)
Definition signedRoute (W : World) (op : SignedOperation) (fileKey : string)
    (c : Request) : Database -> Database * Response :=
  match op with
  | ReadFile => download W fileKey c
  | ListFiles => listFiles W c
  | FileInformation => fileInfo W fileKey c
  | DeleteFile => deleteFile W fileKey c
  | RenewFile => renew W fileKey c
  end.

(** The signed operation a request asks for and the key it names, read
    off its method and path as [routes] does. *)
Definition signedRequest (c : Request) : option (SignedOperation * string) :=
  match method c with
  | GET =>
      if String.eqb (path c) "/" then None
      else if String.eqb (path c) "/health" then None
      else if String.eqb (path c) "/files" then Some (ListFiles, "")
      else match param "/file/" (path c), param "/file-info/" (path c) with
           | Some fileKey, _ => Some (ReadFile, fileKey)
           | None, Some fileKey => Some (FileInformation, fileKey)
           | None, None => None
           end
  | POST =>
      if String.eqb (path c) "/upload" then None
      else match param "/renew/" (path c) with
           | Some fileKey => Some (RenewFile, fileKey)
           | None => None
           end
  | DELETE =>
      match param "/file/" (path c) with
      | Some fileKey => Some (DeleteFile, fileKey)
      | None => None
      end
  | PUT | PATCH => None
  end.

Module Malformed.

(** A verifier that throws on a signature that is not hexadecimal text
    and rejects every other one. *)
Definition world : World :=
  {| clock := clock Sample.world;
     timeZone := timeZone Sample.world;
     verifyMessage := fun _ _ signature =>
       if startsWith signature "0x" then Returns false else Throws;
     s3_put := s3_put Sample.world;
     s3_get := s3_get Sample.world;
     s3_delete := s3_delete Sample.world;
     settles := settles Sample.world |}.

Definition request : Request :=
  Sample.request GET ("/file/" ++ Sample.helloKey)
    (Some Sample.alice) (Some "not a signature") None.

End Malformed.

(** ** The invariant of the ledger *)

(** Every row sits under its own key and holds a lowercased owner. *)
Definition wellFormedRow (key : string) (r : FileRecord) : Prop :=
  fileKey r = key /\ toLowerCase (ownerAddress r) = ownerAddress r.

Definition ledgerInvariant (d : Database) : Prop :=
  map_Forall wellFormedRow d.

(** A handler of the ledger that keeps the invariant. *)
Definition keepsInvariant (h : Database -> Database * Response) : Prop :=
  forall d, ledgerInvariant d -> ledgerInvariant (h d).1.

(** ** Sample data for a zone with summer time *)

Module SummerTime.

(** Central European time around the change of 26 March 2023, 01:00 UTC:
    one hour ahead of UTC before it, two hours after. A local time in the
    skipped hour is read with the offset before the change. *)
Definition change : Z := 1679792400000.

Definition zone : TimeZone :=
  {| offsetAtUTC := fun t => if (t <? change)%Z then 3600000%Z else 7200000%Z;
     offsetAtLocal := fun t =>
       if (t <? change + 7200000)%Z then 3600000%Z else 7200000%Z |}.

(** The sample world moved to that zone, at noon UTC of 20 March 2023. *)
Definition world : World :=
  {| clock := fun n => (1679313600000 + Z.of_nat n)%Z;
     timeZone := zone;
     verifyMessage := verifyMessage Sample.world;
     s3_put := s3_put Sample.world;
     s3_get := s3_get Sample.world;
     s3_delete := s3_delete Sample.world;
     settles := settles Sample.world |}.

End SummerTime.

(** ** Authorisation, as the signed routes establish it *)

(** The request carries both headers, its signature over the operation's
    message verifies for the wallet address, and that address owns the
    key in the ledger. *)
Definition authorisedFor (W : World) (c : Request) (d : Database)
    (op : SignedOperation) (fileKey : string) : Prop :=
  exists walletAddress signature,
    present (walletAddressHeader c) = Some walletAddress
    /\ present (signatureHeader c) = Some signature
    /\ verifyMessage W walletAddress (canonicalMessage op fileKey) signature
       = Returns true
    /\ isOwner d fileKey walletAddress = true.

(** The signed operations that write to the ledger. *)
Definition writes (op : SignedOperation) : bool :=
  match op with
  | ReadFile | DeleteFile | RenewFile => true
  | ListFiles | FileInformation => false
  end.

(** ** Sample data for a signature made for one message *)

Module Scoped.

(** A verifier for which the one signature in use was made by Alice over
    the delete message of her file, and over nothing else. *)
Definition world : World :=
  {| clock := clock Sample.world;
     timeZone := timeZone Sample.world;
     verifyMessage := fun _ message _ =>
       Returns (String.eqb message ("delete:" ++ Sample.helloKey));
     s3_put := s3_put Sample.world;
     s3_get := s3_get Sample.world;
     s3_delete := s3_delete Sample.world;
     settles := settles Sample.world |}.

End Scoped.

(** ** The headers of a download (server/src/routes/storage.ts) *)

Definition doubleQuote : ascii := "034"%char.

(** The template of the read route: [attachment; filename=] and then the
    original file name between double quotes. *)
Definition contentDisposition (originalFilename : string) : string :=
  "attachment; filename=" ++ String doubleQuote (originalFilename ++ String doubleQuote "").

(** The [Content-Disposition] and [Content-Type] headers the read route
    sets on its 200 response. *)
Definition contentDispositionHeader (res : Response) : option string :=
  match body res with
  | DownloadBody _ _ filename _ => Some (contentDisposition filename)
  | _ => None
  end.

(** ** The storage client (client/src/storage-client.ts) *)

Module StorageClient.

(** The viem account of the client: its address and its signing. *)
Record Account : Type := {
  address : string;
  signMessage : string -> string;
}.

(** What the client's process has around it. *)
Record Surroundings : Type := {
  account : Account;
  (** the x402 client signing a payment for a challenge *)
  createPaymentPayload : PaymentChallenge -> Outcome string;
  (** the world in which the server serves the n-th request of a call;
      none when [fetch] rejects *)
  reaches : nat -> option World;
  (** the bytes of a response body that is not a file, and the content
      type the framework gives such a response *)
  serialised : Body -> list Byte.byte;
  jsonContentType : string;
}.

(** [response.ok] *)
Definition ok (res : Response) : bool :=
  (200 <=? status res)%Z && (status res <=? 299)%Z.

(** Why a call did not succeed: the response that was not [ok], under
    the label of the message [`${label}: ${status} - ${text}`], or an
    exception that was caught. *)
Inductive Failure : Type :=
| Refused (label : string) (res : Response)
| Raised.

(** The request of a call: the path is written decoded, as the server
    reads its parameter. *)
Definition request (E : Surroundings) (m : Method) (p : string)
    (signature payment : option string) : Request :=
  {| method := m; path := p;
     walletAddressHeader := Some (address (account E));
     signatureHeader := signature;
     paymentHeader := payment;
     formData := Returns None |}.

(** [await fetch(url, ...)], the n-th of the call, against the server. *)
Definition send (E : Surroundings) (cfg : Config) (n : nat) (c : Request)
    (st : State) : State * Outcome Response :=
  match reaches E n with
  | None => (st, Throws)
  | Some W => let (st', res) := fetch W cfg c st in (st', Returns res)
  end.

(** The group of the client's expression, one or more units other than
    the double quote, is greedy: the longest run of such units, and what
    follows it. *)
Fixpoint untilQuote (s : string) : string * string :=
  match s with
  | EmptyString => (EmptyString, EmptyString)
  | String ch rest =>
      if Ascii.eqb ch doubleQuote then (EmptyString, s)
      else let (run, after) := untilQuote rest in (String ch run, after)
  end.

Fixpoint dropPrefix (p s : string) : option string :=
  match p, s with
  | EmptyString, _ => Some s
  | String a p', String b s' => if Ascii.eqb a b then dropPrefix p' s' else None
  | String _ _, EmptyString => None
  end.

(** A match of the expression at the head of the string: [filename=], a
    double quote, the group, a double quote. *)
Definition matchFilenameHere (s : string) : option string :=
  match dropPrefix ("filename=" ++ String doubleQuote "") s with
  | None => None
  | Some rest =>
      match untilQuote rest with
      | (EmptyString, _) => None
      | (run, String _ _) => Some run
      | (_, EmptyString) => None
      end
  end.

(** [header.match(...)]: the group of the leftmost match. *)
Fixpoint matchFilename (s : string) : option string :=
  match matchFilenameHere s with
  | Some group => Some group
  | None =>
      match s with
      | EmptyString => None
      | String _ rest => matchFilename rest
      end
  end.

(** The file name [downloadFile] takes from the response. *)
Definition filenameOf (contentDisposition : option string) : string :=
  match contentDisposition with
  | None => "download"
  | Some header =>
      if String.eqb header "" then "download"
      else match matchFilename header with
           | Some group => group
           | None => "download"
           end
  end.

Inductive DownloadResult : Type :=
| Downloaded (data : list Byte.byte) (filename contentType : string)
| DownloadFailure (f : Failure).

Definition downloadFile (E : Surroundings) (cfg : Config) (fileKey : string)
    (st : State) : State * DownloadResult :=
  let signature := signMessage (account E) fileKey in
  match send E cfg 0 (request E GET ("/file/" ++ fileKey) (Some signature) None) st with
  | (st', Throws) => (st', DownloadFailure Raised)
  | (st', Returns response) =>
      if negb (ok response)
      then (st', DownloadFailure (Refused "Download failed" response))
      else
        let filename := filenameOf (contentDispositionHeader response) in
        match body response with
        | DownloadBody data ctype _ _ =>
            (st', Downloaded data filename (orElse ctype "application/octet-stream"))
        | other =>
            (st', Downloaded (serialised E other) filename
                    (orElse (jsonContentType E) "application/octet-stream"))
        end
  end.

Inductive ListResult : Type :=
| Listed (files : option (list FileInfo)) (total : option nat)
| ListFailure (f : Failure).

Definition listFiles (E : Surroundings) (cfg : Config) (st : State)
  : State * ListResult :=
  let signature := signMessage (account E) "list-files" in
  match send E cfg 0 (request E GET "/files" (Some signature) None) st with
  | (st', Throws) => (st', ListFailure Raised)
  | (st', Returns response) =>
      if negb (ok response)
      then (st', ListFailure (Refused "List failed" response))
      else match body response with
           | ListBody files total => (st', Listed (Some files) (Some total))
           | _ => (st', Listed None None)
           end
  end.

Inductive InfoResult : Type :=
| Info (info : Body)
| InfoFailure (f : Failure).

Definition getFileInfo (E : Surroundings) (cfg : Config) (fileKey : string)
    (st : State) : State * InfoResult :=
  let signature := signMessage (account E) fileKey in
  match send E cfg 0 (request E GET ("/file-info/" ++ fileKey) (Some signature) None) st with
  | (st', Throws) => (st', InfoFailure Raised)
  | (st', Returns response) =>
      if negb (ok response)
      then (st', InfoFailure (Refused "Get info failed" response))
      else (st', Info (body response))
  end.

Inductive DeleteResult : Type :=
| Deleted
| DeleteFailure (f : Failure).

Definition deleteFile (E : Surroundings) (cfg : Config) (fileKey : string)
    (st : State) : State * DeleteResult :=
  let signature := signMessage (account E) ("delete:" ++ fileKey) in
  match send E cfg 0 (request E DELETE ("/file/" ++ fileKey) (Some signature) None) st with
  | (st', Throws) => (st', DeleteFailure Raised)
  | (st', Returns response) =>
      if negb (ok response)
      then (st', DeleteFailure (Refused "Delete failed" response))
      else (st', Deleted)
  end.

Inductive RenewResult : Type :=
| Renewed (oldExpires newExpires : option Z)
| RenewFailure (f : Failure).

(** [data.oldExpires] and [data.newExpires] of a response that was [ok]. *)
Definition renewed (response : Response) : RenewResult :=
  match body response with
  | RenewBody _ oldExpires newExpires => Renewed (Some oldExpires) (Some newExpires)
  | _ => Renewed None None
  end.

(** [httpClient.getPaymentRequiredResponse]: the challenge of a 402. *)
Definition getPaymentRequiredResponse (response : Response) : Outcome PaymentChallenge :=
  match body response with
  | ChallengeBody challenge => Returns challenge
  | _ => Throws
  end.

Definition handlePaymentAndRenew (E : Surroundings) (cfg : Config)
    (response : Response) (p signature : string) (st : State)
  : State * RenewResult :=
  match getPaymentRequiredResponse response with
  | Throws => (st, RenewFailure Raised)
  | Returns paymentRequired =>
  match createPaymentPayload E paymentRequired with
  | Throws => (st, RenewFailure Raised)
  | Returns paymentPayload =>
  match send E cfg 1 (request E POST p (Some signature) (Some paymentPayload)) st with
  | (st', Throws) => (st', RenewFailure Raised)
  | (st', Returns paidResponse) =>
      if negb (ok paidResponse)
      then (st', RenewFailure (Refused "Payment failed" paidResponse))
      else (st', renewed paidResponse)
  end end end.

Definition renewFile (E : Surroundings) (cfg : Config) (fileKey : string)
    (st : State) : State * RenewResult :=
  let signature := signMessage (account E) ("renew:" ++ fileKey) in
  let p := "/renew/" ++ fileKey in
  match send E cfg 0 (request E POST p (Some signature) None) st with
  | (st', Throws) => (st', RenewFailure Raised)
  | (st', Returns response) =>
      if (status response =? 402)%Z
      then handlePaymentAndRenew E cfg response p signature st'
      else if negb (ok response)
      then (st', RenewFailure (Refused "Renew failed" response))
      else (st', renewed response)
  end.

(** The server's verifier accepts what the account signs. *)
Definition trusts (W : World) (a : Account) : Prop :=
  forall message,
    verifyMessage W (address a) message (signMessage a message) = Returns true.

(** The account has an address and never signs to the empty string. *)
Definition wellFormed (a : Account) : Prop :=
  address a <> "" /\ forall message, signMessage a message <> "".

End StorageClient.

(** A string without a double quote. *)
Fixpoint quoteFree (s : string) : bool :=
  match s with
  | EmptyString => true
  | String ch rest => negb (Ascii.eqb ch doubleQuote) && quoteFree rest
  end.

(** ** Sample data for the client *)

Module ClientSample.

Definition alice : StorageClient.Account :=
  {| StorageClient.address := Sample.alice;
     StorageClient.signMessage := fun _ => "0x5157" |}.

Definition bob : StorageClient.Account :=
  {| StorageClient.address := Sample.bob;
     StorageClient.signMessage := fun _ => "0xb0b5" |}.

(** A client whose requests all reach the sample server and whose wallet
    signs a payment for every challenge. *)
Definition around (a : StorageClient.Account) : StorageClient.Surroundings :=
  {| StorageClient.account := a;
     StorageClient.createPaymentPayload := fun _ => Returns "proof";
     StorageClient.reaches := fun _ => Some Sample.world;
     StorageClient.serialised := fun _ => [];
     StorageClient.jsonContentType := "application/json" |}.

(** The same client with a wallet that cannot pay. *)
Definition broke (a : StorageClient.Account) : StorageClient.Surroundings :=
  {| StorageClient.account := a;
     StorageClient.createPaymentPayload := fun _ => Throws;
     StorageClient.reaches := fun _ => Some Sample.world;
     StorageClient.serialised := fun _ => [];
     StorageClient.jsonContentType := "application/json" |}.

End ClientSample.

(** The status of the response a call was refused with. *)
Definition refusal (f : StorageClient.Failure) : option Z :=
  match f with
  | StorageClient.Refused _ res => Some (status res)
  | StorageClient.Raised => None
  end.

(** ** The command line's display of the time left (client/src/cli.ts) *)

Module Cli.

(** The colours of [chalk] the display uses. *)
Inductive Colour : Type := Red | Green | Yellow.

(** [getTimeRemaining], given the clock reading it takes and the expiry
    as the instant its text denotes; the result is the colour and the
    text. *)
Definition getTimeRemaining (now expires : Z) : Colour * string :=
  let diff := (expires - now)%Z in
  if (diff <? 0)%Z then (Red, "EXPIRED")
  else
    let days := (diff / (1000 * 60 * 60 * 24))%Z in
    let hours := (diff mod (1000 * 60 * 60 * 24) / (1000 * 60 * 60))%Z in
    if (0 <? days)%Z
    then (Green, numberToString days ++ "d " ++ numberToString hours ++ "h")
    else if (0 <? hours)%Z then (Yellow, numberToString hours ++ "h")
    else (Red, "< 1h").

End Cli.

(** ** Reading the environment (server/src/config.ts) *)

Module Environment.

(** [process.env] *)
Abbreviation Env := (gmap string string).

(** Loading the configuration returns it or throws the error that names
    a variable. *)
Inductive Loaded (A : Type) : Type :=
| Ok (a : A)
| MissingRequired (variable : string).
Arguments Ok {A} a.
Arguments MissingRequired {A} variable.

Definition isTrue (val : option string) : bool :=
  match val with
  | Some v => String.eqb v "true" || String.eqb v "1"
  | None => false
  end.

Definition requireEnv (env : Env) (variable : string) : Loaded string :=
  match env !! variable with
  | Some value => if String.eqb value "" then MissingRequired variable else Ok value
  | None => MissingRequired variable
  end.

Definition optionalEnv (env : Env) (variable defaultValue : string) : string :=
  match env !! variable with
  | Some value => orElse value defaultValue
  | None => defaultValue
  end.

(** The texts [config] is built from, before [Number] is applied to the
    three that are numbers. *)
Record Settings : Type := {
  portText : string;
  accessKeyId : string;
  secretAccessKey : string;
  region : string;
  bucketName : string;
  facilitatorUrl : string;
  receiving : string;
  tokenAddress : string;
  tokenName : string;
  networkChainId : string;
  price : string;
  maxFileSizeText : string;
  expirationDaysText : string;
  databasePath : string;
  novaApiRpc : string;
}.

(** [`eip155:${this.networkChainId}`] *)
Definition networkOf (s : Settings) : string := "eip155:" ++ networkChainId s.

Definition bind {A B : Type} (x : Loaded A) (k : A -> Loaded B) : Loaded B :=
  match x with
  | Ok a => k a
  | MissingRequired variable => MissingRequired variable
  end.

(** The object literal [config], its properties read in their order. *)
Definition load (env : Env) : Loaded Settings :=
  let inDocker := isTrue (Some (default "false" (env !! "IN_DOCKER"))) in
  let port := optionalEnv env "PORT" "3000" in
  bind (requireEnv env "AWS_ACCESS_KEY_ID") (fun keyId =>
  bind (requireEnv env "AWS_SECRET_ACCESS_KEY") (fun secret =>
  let awsRegion := optionalEnv env "AWS_REGION" "us-east-1" in
  bind (requireEnv env "S3_BUCKET_NAME") (fun bucket =>
  bind (requireEnv env "FACILITATOR_URL") (fun facilitator =>
  bind (requireEnv env "RECEIVING_ADDRESS") (fun payee =>
  bind (requireEnv env "PAYMENT_TOKEN_ADDRESS") (fun token =>
  Ok {| portText := port;
        accessKeyId := keyId;
        secretAccessKey := secret;
        region := awsRegion;
        bucketName := bucket;
        facilitatorUrl := facilitator;
        receiving := payee;
        tokenAddress := token;
        tokenName := optionalEnv env "PAYMENT_TOKEN_NAME" "Bridged USDC (SKALE Bridge)";
        networkChainId := optionalEnv env "NETWORK_CHAIN_ID" "324705682";
        price := optionalEnv env "DEFAULT_PRICE" "20000";
        maxFileSizeText := optionalEnv env "MAX_FILE_SIZE" "1000000000";
        expirationDaysText := optionalEnv env "FILE_EXPIRATION_DAYS" "10";
        databasePath := optionalEnv env "DATABASE_PATH" "./data/storage.db";
        novaApiRpc := if inDocker then "http://localhost:18000"
                      else "http://odyn.sparsity.cloud:18000" |})))))).

(** The variables the server cannot start without, in the order [config]
    asks for them. *)
Definition required : list string :=
  [ "AWS_ACCESS_KEY_ID"; "AWS_SECRET_ACCESS_KEY"; "S3_BUCKET_NAME";
    "FACILITATOR_URL"; "RECEIVING_ADDRESS"; "PAYMENT_TOKEN_ADDRESS" ].

(** A variable that is set to a text that is not empty. *)
Definition given (env : Env) (variable : string) : bool :=
  match env !! variable with
  | Some value => negb (String.eqb value "")
  | None => false
  end.

(** An environment with the six required variables and nothing else. *)
Definition minimal : Env :=
  list_to_map [ ("AWS_ACCESS_KEY_ID", "key"); ("AWS_SECRET_ACCESS_KEY", "secret");
                ("S3_BUCKET_NAME", "bucket"); ("FACILITATOR_URL", "https://f");
                ("RECEIVING_ADDRESS", "0xfe"); ("PAYMENT_TOKEN_ADDRESS", "0xed") ].

End Environment.

(** The first of the required variables that is not given, if any. *)
Definition firstMissing (env : Environment.Env) : option string :=
  List.find (fun variable => negb (Environment.given env variable)) Environment.required.

(** * Properties *)

(** ** JavaScript primitives *)

Lemma toLowerCaseUnit_idempotent c :
  toLowerCaseUnit (toLowerCaseUnit c) = toLowerCaseUnit c.
Proof. destruct c as [[] [] [] [] [] [] [] []]; reflexivity. Qed.

Lemma toLowerCase_idempotent s : toLowerCase (toLowerCase s) = toLowerCase s.
Proof.
  induction s as [|c s IH]; simpl; [reflexivity|].
  by rewrite toLowerCaseUnit_idempotent, IH.
Qed.

Example toLowerCase_address :
  toLowerCase "0xAbCdEF0123456789" = "0xabcdef0123456789".
Proof. reflexivity. Qed.

Example split_route_key :
  splitLimit " " 2 "POST /renew/*" = ["POST"; "/renew/*"].
Proof. reflexivity. Qed.

Example split_limit_drops_the_rest :
  splitLimit " " 2 "POST /a b" = ["POST"; "/a"].
Proof. reflexivity. Qed.

Example endsWith_wildcard :
  endsWith "/renew/*" "/*" = true /\ endsWith "/upload" "/*" = false
  /\ sliceDropLast 2 "/renew/*" = "/renew".
Proof. by vm_compute. Qed.

Example numberToString_timestamp :
  numberToString 1700000000000 = "1700000000000".
Proof. reflexivity. Qed.

Example replaceOutside_filename :
  replaceOutside isSafeFilenameUnit "my report (final).v2_a-b.pdf"
  = "my_report__final_.v2_a-b.pdf".
Proof. reflexivity. Qed.

(** The replacement works unit by unit. *)
Lemma replaceOutside_get keep s n :
  String.get n (replaceOutside keep s)
  = (fun ch => if keep ch then ch else "_"%char) <$> String.get n s.
Proof.
  revert n. induction s as [|ch s IH]; intros n; simpl; [done|].
  destruct n as [|n]; [done | apply IH].
Qed.

Lemma replaceOutside_length keep s :
  String.length (replaceOutside keep s) = String.length s.
Proof. induction s as [|ch s IH]; simpl; [done | by rewrite IH]. Qed.

Lemma startsWith_spec s p : startsWith s p = true <-> exists rest, s = p ++ rest.
Proof.
  unfold startsWith. revert s.
  induction p as [|a p IH]; intros s; simpl.
  - split; [intros _; by exists s | by destruct s].
  - destruct s as [|b s]; simpl.
    + split; [done | intros [rest ?]; done].
    + destruct (ascii_dec a b) as [->|Hne].
      * rewrite IH. split; intros [rest Hr]; exists rest.
        -- by rewrite Hr.
        -- by injection Hr.
      * split; [done | intros [rest Hr]; injection Hr; congruence].
Qed.

Lemma main_serves_fetch W cfg : main W cfg = Returns (fetch W cfg).
Proof. reflexivity. Qed.

Lemma protectedPaths_computed :
  protectedPaths =
    [ {| pattern := "/upload"; isWildcard := false; prefix := "/upload" |};
      {| pattern := "/renew/*"; isWildcard := true; prefix := "/renew" |} ].
Proof. reflexivity. Qed.

(** ** The payment gate *)

Lemma isProtectedPath_unfold requestPath :
  isProtectedPath protectedPaths requestPath
  = String.eqb requestPath "/upload" || startsWith requestPath "/renew".
Proof.
  rewrite protectedPaths_computed. unfold isProtectedPath. simpl.
  by rewrite orb_false_r.
Qed.

Lemma ledgerOnly_onLedger h : ledgerOnly (onLedger h).
Proof.
  intros st. unfold onLedger. split.
  - by destruct (h (db st)).
  - intros st' <-. by destruct (h (db st)).
Qed.

Lemma ledgerOnly_const res : ledgerOnly (fun st => (st, res)).
Proof. intros st. simpl. split; [done|]. by intros st' ->. Qed.

Lemma ledgerOnly_routes W cfg c : ledgerOnly (routes W cfg c).
Proof.
  unfold routes, notFound.
  repeat (case_match; try apply ledgerOnly_onLedger; try apply ledgerOnly_const).
Qed.

Lemma ledgerOnly_paymentMiddleware W table c next :
  ledgerOnly next -> ledgerOnly (paymentMiddleware W table c next).
Proof.
  intros Hnext st. unfold paymentMiddleware.
  destruct (find _ table) as [[key routeConfig]|]; [|apply Hnext].
  destruct (paymentHeader c) as [proof|]; [destruct (settles W proof)|];
    first [apply Hnext | apply (ledgerOnly_const _ st)].
Qed.

Lemma ledgerOnly_middleware paths paidAware c next :
  ledgerOnly next -> ledgerOnly (paidAware c next) ->
  ledgerOnly (middleware paths paidAware c next).
Proof.
  intros Hnext Hpaid st. unfold middleware.
  destruct (isProtectedPath paths (path c)); [apply Hpaid | apply Hnext].
Qed.

Lemma ledgerOnly_fetch W cfg c : ledgerOnly (fetch W cfg c).
Proof.
  unfold fetch. apply ledgerOnly_middleware.
  - apply ledgerOnly_routes.
  - apply ledgerOnly_paymentMiddleware, ledgerOnly_routes.
Qed.

Lemma startsWith_renew_slash p :
  startsWith p "/renew/" = true -> startsWith p "/renew" = true.
Proof.
  rewrite !startsWith_spec. intros [rest ->]. by exists ("/" ++ rest).
Qed.

Lemma priced_isProtectedPath c :
  priced c = true -> isProtectedPath protectedPaths (path c) = true.
Proof.
  unfold priced. rewrite isProtectedPath_unfold.
  intros [_ [H|H]%orb_true_iff]%andb_true_iff; apply orb_true_iff; [by left|].
  right. by apply startsWith_renew_slash.
Qed.

Lemma x402_finds_priced cfg c :
  priced c = true ->
  exists key description,
    find (fun route => x402RouteMatches route.1 c)
         (createPaymentRoutes cfg (defaultPricingFunction cfg))
    = Some (key, {| accepts := [challengeOf cfg]; description := description |}).
Proof.
  unfold priced. intros [Hm%bool_decide_eq_true Hp]%andb_true_iff.
  unfold createPaymentRoutes, x402RouteMatches. simpl. rewrite Hm. simpl.
  destruct (String.eqb (path c) "/upload") eqn:Hup; simpl.
  - eauto.
  - simpl in Hp. unfold startsWith in *.
    change (sliceDropLast 1 "/renew/*") with "/renew/". rewrite Hp. eauto.
Qed.

Lemma x402_passes_unpriced cfg c :
  priced c = false ->
  find (fun route => x402RouteMatches route.1 c)
       (createPaymentRoutes cfg (defaultPricingFunction cfg)) = None.
Proof.
  unfold priced, createPaymentRoutes, x402RouteMatches. simpl.
  destruct (method c); simpl; try done.
  intros [-> Hp]%orb_false_iff. unfold startsWith in *.
  change (sliceDropLast 1 "/renew/*") with "/renew/". by rewrite Hp.
Qed.

(** What [fetch] does, by cases on the request. *)
Lemma fetch_priced_unsettled W cfg c st :
  priced c = true -> unsettled W c = true ->
  fetch W cfg c st = (st, json (ChallengeBody (challengeOf cfg)) 402).
Proof.
  intros Hp Hu. unfold fetch, middleware.
  rewrite (priced_isProtectedPath _ Hp). unfold paymentMiddleware.
  destruct (x402_finds_priced cfg c Hp) as (key & description & ->). simpl.
  unfold unsettled in Hu. destruct (paymentHeader c) as [proof|]; [|done].
  by destruct (settles W proof).
Qed.

Lemma fetch_priced_settled W cfg c st :
  priced c = true -> unsettled W c = false ->
  fetch W cfg c st = routes W cfg c st.
Proof.
  intros Hp Hu. unfold fetch, middleware.
  rewrite (priced_isProtectedPath _ Hp). unfold paymentMiddleware.
  destruct (x402_finds_priced cfg c Hp) as (key & description & ->). simpl.
  unfold unsettled in Hu. destruct (paymentHeader c) as [proof|]; [|done].
  by destruct (settles W proof).
Qed.

Lemma fetch_unpriced W cfg c st :
  priced c = false -> fetch W cfg c st = routes W cfg c st.
Proof.
  intros Hp. unfold fetch, middleware, paymentMiddleware.
  rewrite (x402_passes_unpriced cfg c Hp). by case_match.
Qed.

(** C9: whether a request is handed to the payment middleware is decided
    by its path alone. The gate opens exactly when the path is [/upload]
    or begins with [/renew]; the method plays no part, so a GET of
    [/upload] and a request for [/renewals] are handed to the payment
    middleware too. *)
Theorem payment_gate_decided_by_path :
  (forall requestPath,
      isProtectedPath protectedPaths requestPath
      = String.eqb requestPath "/upload" || startsWith requestPath "/renew")
  /\ (forall paidAware c next st,
         middleware protectedPaths paidAware c next st
         = if String.eqb (path c) "/upload" || startsWith (path c) "/renew"
           then paidAware c next st
           else next st)
  /\ (forall paidAware m wallet signature payment next st,
         let c := Sample.request m "/upload" wallet signature payment in
         middleware protectedPaths paidAware c next st = paidAware c next st)
  /\ (forall paidAware m wallet signature payment next st,
         let c := Sample.request m "/renewals" wallet signature payment in
         middleware protectedPaths paidAware c next st = paidAware c next st).
Proof.
  split; [exact isProtectedPath_unfold|].
  split; [|split]; intros; unfold middleware;
    by rewrite isProtectedPath_unfold.
Qed.

(** C4: the payment gate takes no account of the set of paid addresses.
    For a priced request, two runs that differ only in that set give the
    same response and leave the same ledger, the set itself is left as it
    was, and a request with no settled proof is answered 402 with the
    state unchanged, whoever is in the set. *)
Theorem fresh_settlement_for_every_priced_request W cfg c ledger paid paid' :
  priced c = true ->
  let st := {| db := ledger; paidAddresses := paid |} in
  let st' := {| db := ledger; paidAddresses := paid' |} in
  (fetch W cfg c st).2 = (fetch W cfg c st').2
  /\ db (fetch W cfg c st).1 = db (fetch W cfg c st').1
  /\ paidAddresses (fetch W cfg c st).1 = paid
  /\ (unsettled W c = true ->
      fetch W cfg c st = (st, json (ChallengeBody (challengeOf cfg)) 402)).
Proof.
  intros Hp st st'.
  destruct (ledgerOnly_fetch W cfg c st) as [Hpaid Hsame].
  destruct (Hsame st' eq_refl) as [Hres Hdb].
  repeat split; try done.
  intros Hu. by apply fetch_priced_unsettled.
Qed.

(** Bob is in the set of paid addresses and asks for an upload without a
    proof: the answer is the challenge, as it is with the set empty. *)
Lemma fresh_settlement_witness :
  let c := Sample.uploadRequest Sample.bob None in
  priced c = true
  /\ hasPaid Sample.bob Sample.state = true
  /\ status (fetch Sample.world Sample.config c Sample.state).2 = 402%Z
  /\ (fetch Sample.world Sample.config c Sample.state).2
     = (fetch Sample.world Sample.config c
          {| db := db Sample.state; paidAddresses := ∅ |}).2.
Proof.
  intros c.
  pose proof (fresh_settlement_for_every_priced_request
                Sample.world Sample.config c (db Sample.state)
                (paidAddresses Sample.state) ∅ eq_refl) as (Hres & _ & _ & H402).
  split; [reflexivity|]. split; [by vm_compute|]. split; [|exact Hres].
  change {| db := db Sample.state; paidAddresses := paidAddresses Sample.state |}
    with Sample.state in H402.
  by rewrite (H402 eq_refl).
Defined.

(** ** Routing *)

Lemma substring_whole s : String.substring 0 (String.length s) s = s.
Proof. induction s as [|a s IH]; simpl; [done | by rewrite IH]. Qed.

Lemma substring_after p s n :
  String.substring (String.length p) n (p ++ s) = String.substring 0 n s.
Proof. induction p as [|a p IH]; simpl; [done | apply IH]. Qed.

Lemma length_append p s :
  String.length (p ++ s) = (String.length p + String.length s)%nat.
Proof. induction p as [|a p IH]; simpl; [done | by rewrite IH]. Qed.

Lemma param_append routePrefix fileKey :
  fileKey <> "" -> param routePrefix (routePrefix ++ fileKey) = Some fileKey.
Proof.
  intros Hne. unfold param.
  assert (startsWith (routePrefix ++ fileKey) routePrefix = true) as ->
    by (apply startsWith_spec; eauto).
  rewrite substring_after, length_append.
  replace (String.length routePrefix + String.length fileKey
           - String.length routePrefix)%nat
    with (String.length fileKey) by lia.
  rewrite substring_whole.
  by destruct (String.eqb_spec fileKey "").
Qed.

Lemma onLedger_unchanged h st res :
  h (db st) = (db st, res) -> onLedger h st = (st, res).
Proof. unfold onLedger. intros ->. by destruct st. Qed.

Lemma routes_renew W cfg c fileKey :
  method c = POST -> path c = "/renew/" ++ fileKey -> fileKey <> "" ->
  routes W cfg c = onLedger (renew W fileKey c).
Proof.
  intros Hm Hp Hne. unfold routes. rewrite Hm, Hp.
  by rewrite (param_append "/renew/" fileKey Hne).
Qed.

Lemma routes_download W cfg c fileKey :
  method c = GET -> path c = "/file/" ++ fileKey -> fileKey <> "" ->
  routes W cfg c = onLedger (download W fileKey c).
Proof.
  intros Hm Hp Hne. unfold routes. rewrite Hm, Hp.
  rewrite (param_append "/file/" fileKey Hne).
  destruct fileKey as [|a k]; [done|].
  simpl. destruct (Ascii.eqb_spec a "s"); [|done].
  subst a. by destruct k.
Qed.

Lemma renew_request_priced c fileKey :
  method c = POST -> path c = "/renew/" ++ fileKey -> priced c = true.
Proof.
  intros Hm Hp. unfold priced. rewrite Hm, Hp.
  assert (startsWith ("/renew/" ++ fileKey) "/renew/" = true) as ->
    by (apply startsWith_spec; eauto).
  by rewrite orb_true_r.
Qed.

(** ** Renewal *)

(** C1, as the code has it: the payment gate stands in front of the
    renew route. A POST of [/renew/key] with no settled payment proof is
    answered 402 with the state unchanged, whoever owns the key; once the
    proof is settled and the signature verifies, a caller who is not the
    owner of an existing key is answered 403 and nothing is renewed. *)
Theorem renew_is_gated_by_payment_then_ownership W cfg c st fileKey :
  method c = POST -> path c = "/renew/" ++ fileKey -> fileKey <> "" ->
  (unsettled W c = true ->
   fetch W cfg c st = (st, json (ChallengeBody (challengeOf cfg)) 402))
  /\ (unsettled W c = false ->
      forall walletAddress signature record,
        present (walletAddressHeader c) = Some walletAddress ->
        present (signatureHeader c) = Some signature ->
        verifyMessage W walletAddress ("renew:" ++ fileKey) signature = Returns true ->
        getFile (db st) fileKey = Some record ->
        isOwner (db st) fileKey walletAddress = false ->
        fetch W cfg c st = (st, failure AccessDenied 403)).
Proof.
  intros Hm Hp Hne.
  pose proof (renew_request_priced c fileKey Hm Hp) as Hpriced.
  split; intros Hu.
  - by apply fetch_priced_unsettled.
  - intros walletAddress signature record Hw Hs Hv Hget Hown.
    rewrite (fetch_priced_settled _ _ _ _ Hpriced Hu).
    rewrite (routes_renew W cfg c fileKey Hm Hp Hne).
    apply onLedger_unchanged. unfold renew, signatureRejection. simpl.
    by rewrite Hw, Hs, Hv, Hget, Hown.
Qed.

(** Bob signs a renewal of Alice's key and attaches a proof that settles:
    403. *)
Lemma renew_is_gated_witness :
  let c := Sample.request POST ("/renew/" ++ Sample.helloKey)
             (Some Sample.bob) (Some "0x5157") (Some "proof") in
  unsettled Sample.world c = false
  /\ fetch Sample.world Sample.config c Sample.state
     = (Sample.state, failure AccessDenied 403).
Proof.
  intros c. split; [reflexivity|].
  refine (proj2 (renew_is_gated_by_payment_then_ownership
                   Sample.world Sample.config c Sample.state Sample.helloKey
                   eq_refl eq_refl _) eq_refl
                Sample.bob "0x5157" Sample.helloRecord
                eq_refl eq_refl eq_refl _ _).
  - discriminate.
  - by vm_compute.
  - by vm_compute.
Defined.

(** C1, as the specification words it, fails: Bob signs a renewal of Alice's
    existing key and attaches no payment proof. He is not the owner, and
    the answer is the 402 challenge, not 403. *)
Lemma renew_unpaid_non_owner_gets_402 :
  let c := Sample.request POST ("/renew/" ++ Sample.helloKey)
             (Some Sample.bob) (Some "0x5157") None in
  getFile (db Sample.state) Sample.helloKey = Some Sample.helloRecord
  /\ isOwner (db Sample.state) Sample.helloKey Sample.bob = false
  /\ paymentHeader c = None
  /\ status (fetch Sample.world Sample.config c Sample.state).2 = 402%Z
  /\ status (fetch Sample.world Sample.config c Sample.state).2 <> 403%Z.
Proof.
  intros c.
  assert (fetch Sample.world Sample.config c Sample.state
          = (Sample.state, json (ChallengeBody (challengeOf Sample.config)) 402)) as ->
    by (by apply fetch_priced_unsettled).
  split; [by vm_compute|]. split; [by vm_compute|]. by repeat split.
Qed.

Lemma addDays_fixedZone offset t days :
  addDays (fixedZone offset) t days = (t + days * msPerDay)%Z.
Proof. unfold addDays, fixedZone. simpl. lia. Qed.

Lemma getFile_updateExpiresAt d newExpires fileKey record :
  getFile d fileKey = Some record ->
  getFile (updateExpiresAt d newExpires fileKey) fileKey
  = Some (withExpiresAt newExpires record).
Proof.
  unfold getFile, updateExpiresAt. intros H.
  by rewrite lookup_alter_eq, H.
Qed.

(** With a lease of ten days from [T0], renewing at [T0 + 2 days] moves
    the expiry to [T0 + 20 days]; renewing the same lease at
    [T0 + 15 days], after it lapsed, moves it to [T0 + 25 days]. *)
Example renew_from_current_expiry (T0 : Z) :
  addDays utcZone (Z.max (T0 + 2 * msPerDay) (T0 + 10 * msPerDay)) 10
  = (T0 + 20 * msPerDay)%Z.
Proof. unfold utcZone. rewrite addDays_fixedZone. unfold msPerDay. lia. Qed.

Example renew_from_now_when_lapsed (T0 : Z) :
  addDays utcZone (Z.max (T0 + 15 * msPerDay) (T0 + 10 * msPerDay)) 10
  = (T0 + 25 * msPerDay)%Z.
Proof. unfold utcZone. rewrite addDays_fixedZone. unfold msPerDay. lia. Qed.

(** C2, as the code has it: a paid, signed renewal of an existing record
    by its owner moves the expiry to [max(now, currentExpiresAt)] plus ten
    calendar days of the server's local time, whatever lease duration is
    configured. On a server whose zone has a fixed offset this is
    [max(now, currentExpiresAt) + 10 days], which is at least the old
    expiry and at least [now + 10 days]. *)
Theorem renew_adds_ten_days W cfg c st fileKey walletAddress signature record :
  method c = POST -> path c = "/renew/" ++ fileKey -> fileKey <> "" ->
  unsettled W c = false ->
  present (walletAddressHeader c) = Some walletAddress ->
  present (signatureHeader c) = Some signature ->
  verifyMessage W walletAddress ("renew:" ++ fileKey) signature = Returns true ->
  getFile (db st) fileKey = Some record ->
  isOwner (db st) fileKey walletAddress = true ->
  let now := clock W 0 in
  let newExpires := addDays (timeZone W) (Z.max now (expiresAt record)) 10 in
  (fetch W cfg c st).2 = json (RenewBody fileKey (expiresAt record) newExpires) 200
  /\ getFile (db (fetch W cfg c st).1) fileKey = Some (withExpiresAt newExpires record)
  /\ (forall offset, timeZone W = fixedZone offset ->
        newExpires = (Z.max now (expiresAt record) + 10 * msPerDay)%Z
        /\ (expiresAt record <= newExpires)%Z
        /\ (now + 10 * msPerDay <= newExpires)%Z).
Proof.
  intros Hm Hp Hne Hu Hw Hs Hv Hget Hown now newExpires.
  pose proof (renew_request_priced c fileKey Hm Hp) as Hpriced.
  rewrite (fetch_priced_settled _ _ _ _ Hpriced Hu).
  rewrite (routes_renew W cfg c fileKey Hm Hp Hne).
  unfold onLedger, renew, signatureRejection, canonicalMessage.
  rewrite Hw, Hs, Hv, Hget, Hown. simpl.
  split; [done|]. split; [by apply getFile_updateExpiresAt|].
  intros offset Hzone. subst newExpires. rewrite Hzone, addDays_fixedZone.
  unfold msPerDay. lia.
Qed.

(** Alice renews her file on the sample server. *)
Lemma renew_adds_ten_days_witness :
  (fetch Sample.world Sample.config LongLease.renewal Sample.state).2
  = json (RenewBody Sample.helloKey 1700863999000 1701727999000) 200.
Proof.
  refine (proj1 (renew_adds_ten_days Sample.world Sample.config
                   LongLease.renewal Sample.state Sample.helloKey
                   Sample.alice "0x5157" Sample.helloRecord
                   eq_refl eq_refl _ eq_refl eq_refl eq_refl eq_refl _ _)).
  - discriminate.
  - by vm_compute.
  - by vm_compute.
Defined.

(** C2, as the specification words it, fails: with a configured lease of 30 days,
    Alice's renewal still adds 10 days to the current expiry, not the
    configured 30. *)
Lemma renew_disregards_configured_lease :
  let now := clock Sample.world 0 in
  let old := expiresAt Sample.helloRecord in
  expirationDays LongLease.config = 30%Z
  /\ isOwner (db Sample.state) Sample.helloKey Sample.alice = true
  /\ (fetch Sample.world LongLease.config LongLease.renewal Sample.state).2
     = json (RenewBody Sample.helloKey old (Z.max now old + 10 * msPerDay)) 200
  /\ (Z.max now old + 10 * msPerDay
      <> Z.max now old + expirationDays LongLease.config * msPerDay)%Z.
Proof. by vm_compute. Qed.

(** Where the clocks go forward within the ten days, ten calendar days
    are an hour short of ten times 24 hours: a renewal at noon UTC of
    20 March 2023 in Central European time ends an hour before
    [now + 10 days]. *)
Lemma renew_across_clock_change :
  let now := clock SummerTime.world 0 in
  addDays (timeZone SummerTime.world) now 10 = (now + 10 * msPerDay - 3600000)%Z
  /\ (addDays (timeZone SummerTime.world) now 10 < now + 10 * msPerDay)%Z.
Proof. by vm_compute. Qed.

(** ** Upload *)

Lemma routes_upload W cfg c :
  method c = POST -> path c = "/upload" ->
  routes W cfg c = onLedger (upload W cfg c).
Proof. intros Hm Hp. unfold routes. by rewrite Hm, Hp. Qed.

Lemma upload_request_priced c :
  method c = POST -> path c = "/upload" -> priced c = true.
Proof. intros Hm Hp. unfold priced. by rewrite Hm, Hp. Qed.

(** A priced request that is answered 200 got past the gate to its route. *)
Lemma fetch_priced_200 W cfg c st :
  priced c = true -> status (fetch W cfg c st).2 = 200%Z ->
  fetch W cfg c st = routes W cfg c st.
Proof.
  intros Hp H200. destruct (unsettled W c) eqn:Hu.
  - by rewrite (fetch_priced_unsettled _ _ _ _ Hp Hu) in H200.
  - by apply fetch_priced_settled.
Qed.

(** The one way through [upload] that ends in 200. *)
Lemma upload_200 W cfg c d :
  status (upload W cfg c d).2 = 200%Z ->
  exists walletAddress file,
    present (walletAddressHeader c) = Some walletAddress
    /\ formData c = Returns (Some file)
    /\ (fileSize file <= maxSizeBytes cfg)%Z
    /\ let fileKey := generateKey walletAddress (clock W 0) (name file) in
       let record :=
         {| fileKey := fileKey;
            ownerAddress := toLowerCase walletAddress;
            originalFilename := name file;
            contentType := orElse (type file) "application/octet-stream";
            sizeBytes := fileSize file;
            uploadedAt := clock W 1;
            expiresAt := addDays (timeZone W) (clock W 1) (expirationDays cfg) |} in
       d !! fileKey = None
       /\ upload W cfg c d
          = (<[fileKey := record]> d,
             json (UploadBody fileKey (fileSize file) (uploadedAt record)
                     (expiresAt record)) 200).
Proof.
  unfold upload, recordUpload.
  destruct (present (walletAddressHeader c)) as [walletAddress|]; [|done].
  destruct (formData c) as [[file|]|]; [|done|done].
  destruct (Z.ltb_spec (maxSizeBytes cfg) (fileSize file)); [done|].
  destruct (s3_put W _ _ _) as [[]|]; [|done|done]. simpl.
  destruct (d !! _) eqn:Hfresh; [done|]. intros _.
  exists walletAddress, file. by repeat split.
Qed.

Lemma present_Some v s : present v = Some s -> v = Some s.
Proof. destruct v as [x|]; simpl; [|done]. by destruct (String.eqb x ""). Qed.

(** C3, as the code has it: the key of a successful upload is the
    lowercased wallet address, a slash, the server's millisecond
    timestamp in decimal, a dash, and the file name in which every
    character other than an ASCII letter, a digit, a dot, an underscore or
    a dash is replaced by an underscore. The ledger holds the record
    under that key, and the legacy client's [generateFileKey] builds the
    same key. *)
Theorem upload_key_format W cfg c st :
  method c = POST -> path c = "/upload" ->
  status (fetch W cfg c st).2 = 200%Z ->
  exists walletAddress file,
    walletAddressHeader c = Some walletAddress
    /\ formData c = Returns (Some file)
    /\ let key := toLowerCase walletAddress ++ "/" ++ numberToString (clock W 0)
                    ++ "-" ++ replaceOutside isSafeFilenameUnit (name file) in
       (exists bytes uploaded expires,
           body (fetch W cfg c st).2 = UploadBody key bytes uploaded expires)
       /\ (exists record, getFile (db (fetch W cfg c st).1) key = Some record
                          /\ fileKey record = key)
       /\ key = S3StorageClient.generateFileKey (clock W 0) walletAddress (name file).
Proof.
  intros Hm Hp H200.
  pose proof (upload_request_priced c Hm Hp) as Hpriced.
  pose proof (fetch_priced_200 _ _ _ _ Hpriced H200) as Hfetch.
  rewrite Hfetch in H200 |- *. clear Hfetch.
  rewrite (routes_upload W cfg c Hm Hp) in H200 |- *.
  unfold onLedger in H200 |- *.
  destruct (upload_200 W cfg c (db st))
    as (walletAddress & file & Hw & Hf & _ & _ & Heq).
  { by destruct (upload W cfg c (db st)). }
  rewrite Heq. simpl.
  exists walletAddress, file.
  split; [by apply present_Some|]. split; [done|].
  split; [by eauto|]. split; [|done].
  eexists. unfold getFile. rewrite lookup_insert_eq. by split.
Qed.

(** Alice's paid upload of [hello.txt] on the sample server. *)
Lemma upload_key_format_witness :
  exists bytes uploaded expires,
    body (fetch Sample.world Sample.config
            (Sample.uploadRequest Sample.alice (Some "proof")) Sample.state).2
    = UploadBody "0xaaaa00000000000000000000000000000000aaaa/1700000000000-hello.txt"
        bytes uploaded expires.
Proof.
  destruct (upload_key_format Sample.world Sample.config
              (Sample.uploadRequest Sample.alice (Some "proof")) Sample.state
              eq_refl eq_refl)
    as (walletAddress & file & Hw & Hf & Hbody & _).
  - by vm_compute.
  - injection Hw as <-. injection Hf as <-. exact Hbody.
Defined.

(** C3, as the specification words it, fails: the dot of [hello.txt] is not
    alphanumeric and the key keeps it. *)
Lemma upload_key_keeps_dot :
  let c := Sample.uploadRequest Sample.alice (Some "proof") in
  exists bytes uploaded expires,
    (fetch Sample.world Sample.config c Sample.state).2
    = json (UploadBody
              "0xaaaa00000000000000000000000000000000aaaa/1700000000000-hello.txt"
              bytes uploaded expires) 200
    /\ keyFormatAsSpecified Sample.alice (clock Sample.world 0) "hello.txt"
       = "0xaaaa00000000000000000000000000000000aaaa/1700000000000-hello_txt"
    /\ "0xaaaa00000000000000000000000000000000aaaa/1700000000000-hello.txt"
       <> keyFormatAsSpecified Sample.alice (clock Sample.world 0) "hello.txt".
Proof. do 3 eexists. by vm_compute. Qed.

(** C6, as the code has it: [recordUpload] throws when the key is
    already in the ledger and inserts the record otherwise. An upload
    that gets as far as the ledger with a key that is taken is answered
    with the route's general 500 and leaves the ledger as it was; with a
    fresh key the record goes in with the owner lowercased and an expiry
    of [uploadedAt] plus the configured number of calendar days, which on
    a server whose zone has a fixed offset is
    [uploadedAt + expirationDays] days. *)
Theorem create_throws_on_duplicate_key W cfg c d walletAddress file :
  present (walletAddressHeader c) = Some walletAddress ->
  formData c = Returns (Some file) ->
  (fileSize file <= maxSizeBytes cfg)%Z ->
  let key := generateKey walletAddress (clock W 0) (name file) in
  let mime := orElse (type file) "application/octet-stream" in
  s3_put W key (content file) mime = Returns true ->
  let expires := addDays (timeZone W) (clock W 1) (expirationDays cfg) in
  let record (owner : string) :=
    {| fileKey := key; ownerAddress := owner; originalFilename := name file;
       contentType := mime; sizeBytes := fileSize file;
       uploadedAt := clock W 1; expiresAt := expires |} in
  (is_Some (d !! key) ->
     recordUpload d (record walletAddress) = Throws
     /\ upload W cfg c d = (d, failure UploadFailed 500))
  /\ (d !! key = None ->
      recordUpload d (record walletAddress)
      = Returns (<[key := record (toLowerCase walletAddress)]> d)
      /\ upload W cfg c d
         = (<[key := record (toLowerCase walletAddress)]> d,
            json (UploadBody key (fileSize file) (clock W 1) expires) 200))
  /\ (forall offset, timeZone W = fixedZone offset ->
        expires = (clock W 1 + expirationDays cfg * msPerDay)%Z).
Proof.
  intros Hw Hf Hsize key mime Hput expires record.
  assert (upload W cfg c d
          = match recordUpload d (record walletAddress) with
            | Throws => (d, failure UploadFailed 500)
            | Returns d' =>
                (d', json (UploadBody key (fileSize file) (clock W 1) expires) 200)
            end) as Hup.
  { unfold upload. rewrite Hw, Hf.
    destruct (Z.ltb_spec (maxSizeBytes cfg) (fileSize file)); [lia|].
    fold key mime. by rewrite Hput. }
  split; [|split].
  - intros [old Hold]. rewrite Hup. unfold recordUpload. simpl. by rewrite Hold.
  - intros Hfresh. rewrite Hup. unfold recordUpload. simpl. by rewrite Hfresh.
  - intros offset Hzone. subst expires. by rewrite Hzone, addDays_fixedZone.
Qed.

(** Alice's upload meets a ledger that already holds its key. *)
Lemma create_throws_on_duplicate_key_witness :
  upload Sample.world Sample.config
    (Sample.uploadRequest Sample.alice (Some "proof")) Collision.ledger
  = (Collision.ledger, failure UploadFailed 500).
Proof.
  refine (proj2 (proj1 (create_throws_on_duplicate_key
                          Sample.world Sample.config
                          (Sample.uploadRequest Sample.alice (Some "proof"))
                          Collision.ledger Sample.alice Sample.helloFile
                          eq_refl eq_refl _ eq_refl) _)).
  - by vm_compute.
  - eexists. by vm_compute.
Defined.

(** C6, as the specification words it, fails: the duplicate key is not answered as
    a conflict. The response is the 500 the route gives for any failure,
    the very one it gives when the blob store is down. *)
Lemma duplicate_key_is_a_generic_failure :
  let c := Sample.uploadRequest Sample.alice (Some "proof") in
  let res := (fetch Sample.world Sample.config c Collision.state).2 in
  is_Some (getFile (db Collision.state)
             (generateKey Sample.alice (clock Sample.world 0) "hello.txt"))
  /\ res = failure UploadFailed 500
  /\ status res <> 409%Z
  /\ res = (fetch Collision.brokenStore Sample.config c Sample.state).2
  /\ (fetch Sample.world Sample.config c Collision.state).1 = Collision.state.
Proof.
  intros c res. split; [eexists; by vm_compute|].
  assert (res = failure UploadFailed 500) as -> by (by vm_compute).
  split; [done|]. split; [done|]. split; by vm_compute.
Qed.

(** ** Listing *)

Lemma elem_of_rows (d : Database) (file : FileRecord) :
  file ∈ rows d <-> exists key, d !! key = Some file.
Proof.
  unfold rows. rewrite list_elem_of_fmap. split.
  - intros [[key r] [-> Hin]]. exists key. by apply elem_of_map_to_list.
  - intros [key Hkey]. exists (key, file). split; [done|].
    by apply elem_of_map_to_list.
Qed.

Lemma elem_of_getFilesByOwner (d : Database) owner (file : FileRecord) :
  file ∈ getFilesByOwner d owner
  <-> (exists key, d !! key = Some file) /\ ownerAddress file = toLowerCase owner.
Proof.
  unfold getFilesByOwner.
  rewrite merge_sort_Permutation, list_elem_of_filter, elem_of_rows.
  unfold ownedBy. tauto.
Qed.

Lemma StronglySorted_filter_keeps {A} (R : relation A) (P : A -> Prop)
    `{!forall x, Decision (P x)} (l : list A) :
  StronglySorted R l -> StronglySorted R (filter P l).
Proof.
  induction 1 as [|x l Hl IH Hx]; [constructor|].
  rewrite filter_cons. case_decide; [|done].
  constructor; [done|].
  rewrite Forall_forall in Hx |- *.
  intros y [_ Hy]%list_elem_of_filter. by apply Hx.
Qed.

Lemma getFilesByOwner_sorted (d : Database) owner :
  StronglySorted uploadedAfter (getFilesByOwner d owner).
Proof. unfold getFilesByOwner. apply StronglySorted_merge_sort; apply _. Qed.

Lemma routes_listFiles W cfg c :
  method c = GET -> path c = "/files" ->
  routes W cfg c = onLedger (listFiles W c).
Proof. intros Hm Hp. unfold routes. by rewrite Hm, Hp. Qed.

Lemma unpriced_unless_POST c : method c <> POST -> priced c = false.
Proof.
  intros Hm. unfold priced. by rewrite bool_decide_eq_false_2.
Qed.

(** C5: what GET /files lists for a wallet address, read at the server
    time of the call, is exactly the stored records whose owner is the
    lowercased address and whose expiry has not passed; it is ordered from
    the most recent upload to the oldest, and a row that the sweep has
    left in the ledger after its expiry is not in it. *)
Theorem listed_files_owned_recent_first_unexpired W cfg c st walletAddress signature :
  method c = GET -> path c = "/files" ->
  present (walletAddressHeader c) = Some walletAddress ->
  present (signatureHeader c) = Some signature ->
  verifyMessage W walletAddress "list-files" signature = Returns true ->
  let now := clock W 0 in
  let listed := activeFiles now (getFilesByOwner (db st) walletAddress) in
  fetch W cfg c st = (st, json (ListBody (toFileInfo <$> listed) (length listed)) 200)
  /\ (forall file,
        file ∈ listed
        <-> (exists key, db st !! key = Some file)
            /\ ownerAddress file = toLowerCase walletAddress
            /\ (now <= expiresAt file)%Z)
  /\ StronglySorted (fun a b => (uploadedAt b <= uploadedAt a)%Z) listed
  /\ (forall key file,
        db st !! key = Some file -> (expiresAt file < now)%Z -> file ∉ listed).
Proof.
  intros Hm Hp Hw Hs Hv now listed.
  assert (forall file,
             file ∈ listed
             <-> (exists key, db st !! key = Some file)
                 /\ ownerAddress file = toLowerCase walletAddress
                 /\ (now <= expiresAt file)%Z) as Hlisted.
  { intros file. subst listed. unfold activeFiles.
    rewrite list_elem_of_filter, elem_of_getFilesByOwner. tauto. }
  split; [|split; [done|split]].
  - rewrite fetch_unpriced by (apply unpriced_unless_POST; by rewrite Hm).
    rewrite (routes_listFiles W cfg c Hm Hp).
    apply onLedger_unchanged. unfold listFiles, signatureRejection, canonicalMessage.
    by rewrite Hw, Hs, Hv.
  - apply StronglySorted_filter_keeps, getFilesByOwner_sorted.
  - intros key file _ Hpast [_ [_ Hle]]%Hlisted. lia.
Qed.

(** Alice lists her files: the two that are live, the newer first; her
    lapsed file is still in the ledger and is left out, as is Bob's. *)
Lemma listed_files_witness :
  getFile (db Listing.state) (fileKey Listing.lapsed) = Some Listing.lapsed
  /\ (fetch Sample.world Sample.config Listing.request Listing.state).2
     = json (ListBody [toFileInfo Listing.newer; toFileInfo Listing.older] 2) 200.
Proof.
  split; [by vm_compute|].
  rewrite (proj1 (listed_files_owned_recent_first_unexpired
                    Sample.world Sample.config Listing.request Listing.state
                    Sample.alice "0x5157" eq_refl eq_refl eq_refl eq_refl eq_refl)).
  by vm_compute.
Defined.

(** ** Deletion *)

Lemma routes_deleteFile W cfg c fileKey :
  method c = DELETE -> path c = "/file/" ++ fileKey -> fileKey <> "" ->
  routes W cfg c = onLedger (deleteFile W fileKey c).
Proof.
  intros Hm Hp Hne. unfold routes. rewrite Hm, Hp.
  by rewrite (param_append "/file/" fileKey Hne).
Qed.

(** The one way through [deleteFile] that ends in 200. *)
Lemma deleteFile_200 W fileKey c d :
  status (deleteFile W fileKey c d).2 = 200%Z ->
  (deleteFile W fileKey c d).1 = delete fileKey d.
Proof.
  unfold deleteFile, signatureRejection, failure, json.
  repeat case_match; simplify_eq/=; done.
Qed.

(** A request for a missing key leaves the ledger alone and is answered
    404 once its signature has verified. *)
Lemma deleteFile_missing W fileKey c d walletAddress signature :
  present (walletAddressHeader c) = Some walletAddress ->
  present (signatureHeader c) = Some signature ->
  verifyMessage W walletAddress ("delete:" ++ fileKey) signature = Returns true ->
  getFile d fileKey = None ->
  deleteFile W fileKey c d = (d, failure FileNotFound 404).
Proof.
  intros Hw Hs Hv Hget. unfold deleteFile, signatureRejection, canonicalMessage.
  by rewrite Hw, Hs, Hv, Hget.
Qed.

Lemma download_missing W fileKey c d walletAddress signature :
  present (walletAddressHeader c) = Some walletAddress ->
  present (signatureHeader c) = Some signature ->
  verifyMessage W walletAddress fileKey signature = Returns true ->
  getFile d fileKey = None ->
  download W fileKey c d = (d, failure FileNotFound 404).
Proof.
  intros Hw Hs Hv Hget. unfold download, signatureRejection, canonicalMessage.
  by rewrite Hw, Hs, Hv, Hget.
Qed.

(** Whatever its credentials, a DELETE of a key that is not in the
    ledger leaves the ledger as it was. *)
Lemma deleteFile_absent_unchanged W fileKey c d :
  getFile d fileKey = None -> (deleteFile W fileKey c d).1 = d.
Proof.
  intros Hget. unfold deleteFile. rewrite Hget.
  by repeat case_match.
Qed.

(** C7: deleting from the ledger is idempotent and cannot fail:
    [deleteRecord] on a key that is not there returns, reports that no row
    went and leaves the ledger as it was, and a second delete of a key
    changes nothing. A DELETE of a key that is answered 200 has run that
    ledger delete: the key is gone, a repeated DELETE of it leaves the
    state as it is, and a signed Read of it, served in any world, is
    answered 404 "File not found". *)
Theorem delete_is_idempotent W W' cfg c c' st fileKey walletAddress signature :
  method c = DELETE -> path c = "/file/" ++ fileKey -> fileKey <> "" ->
  status (fetch W cfg c st).2 = 200%Z ->
  method c' = GET -> path c' = "/file/" ++ fileKey ->
  present (walletAddressHeader c') = Some walletAddress ->
  present (signatureHeader c') = Some signature ->
  verifyMessage W' walletAddress fileKey signature = Returns true ->
  let st' := (fetch W cfg c st).1 in
  (forall d key, d !! key = None -> deleteRecord d key = (d, false))
  /\ (forall d key,
        deleteRecord (deleteRecord d key).1 key = ((deleteRecord d key).1, false))
  /\ db st' = (deleteRecord (db st) fileKey).1
  /\ getFile (db st') fileKey = None
  /\ (forall W'' again,
        method again = DELETE -> path again = "/file/" ++ fileKey ->
        (fetch W'' cfg again st').1 = st')
  /\ fetch W' cfg c' st' = (st', failure FileNotFound 404).
Proof.
  intros Hm Hp Hne H200 Hm' Hp' Hw Hs Hv st'.
  assert (db st' = delete fileKey (db st)) as Hdb.
  { subst st'. revert H200.
    rewrite fetch_unpriced by (apply unpriced_unless_POST; by rewrite Hm).
    rewrite (routes_deleteFile W cfg c fileKey Hm Hp Hne). unfold onLedger.
    pose proof (deleteFile_200 W fileKey c (db st)) as Hdel.
    destruct (deleteFile W fileKey c (db st)) as [d' res]. simpl in *.
    by intros ->%Hdel. }
  assert (getFile (db st') fileKey = None) as Hgone.
  { unfold getFile. rewrite Hdb. apply lookup_delete_eq. }
  split; [|split; [|split; [done|split; [done|split]]]].
  - intros d key Hkey. unfold deleteRecord.
    rewrite delete_id by done. rewrite bool_decide_eq_false_2; [done|].
    rewrite Hkey. by intros [? ?].
  - intros d key. unfold deleteRecord. simpl.
    rewrite delete_delete_eq. rewrite bool_decide_eq_false_2; [done|].
    rewrite lookup_delete_eq. by intros [? ?].
  - intros W'' again Hma Hpa.
    rewrite fetch_unpriced by (apply unpriced_unless_POST; by rewrite Hma).
    rewrite (routes_deleteFile W'' cfg again fileKey Hma Hpa Hne).
    unfold onLedger.
    pose proof (deleteFile_absent_unchanged W'' fileKey again (db st') Hgone) as Hsame.
    destruct (deleteFile W'' fileKey again (db st')) as [d' res]. simpl in *.
    subst d'. by destruct st'.
  - rewrite fetch_unpriced by (apply unpriced_unless_POST; by rewrite Hm').
    rewrite (routes_download W' cfg c' fileKey Hm' Hp' Hne).
    apply onLedger_unchanged. by eapply download_missing.
Qed.

(** Alice deletes her file and then asks for it. *)
Lemma delete_is_idempotent_witness :
  let remove := Sample.request DELETE ("/file/" ++ Sample.helloKey)
                  (Some Sample.alice) (Some "0x5157") None in
  let read := Sample.request GET ("/file/" ++ Sample.helloKey)
                (Some Sample.alice) (Some "0x5157") None in
  let st' := (fetch Sample.world Sample.config remove Sample.state).1 in
  status (fetch Sample.world Sample.config remove Sample.state).2 = 200%Z
  /\ fetch Sample.world Sample.config read st' = (st', failure FileNotFound 404).
Proof.
  intros remove read st'.
  assert (status (fetch Sample.world Sample.config remove Sample.state).2 = 200%Z)
    as H200 by (by vm_compute).
  split; [exact H200|].
  refine (proj2 (proj2 (proj2 (proj2 (proj2
            (delete_is_idempotent Sample.world Sample.world Sample.config
               remove read Sample.state Sample.helloKey Sample.alice "0x5157"
               eq_refl eq_refl _ H200 eq_refl eq_refl eq_refl eq_refl eq_refl)))))).
  discriminate.
Defined.

(** ** Signature verification *)

Lemma routes_signed W cfg c op fileKey :
  signedRequest c = Some (op, fileKey) ->
  routes W cfg c = onLedger (signedRoute W op fileKey c).
Proof.
  unfold signedRequest, routes.
  repeat case_match; intros; simplify_eq/=; done.
Qed.

(** Every signed route answers a signature that does not verify, and a
    verification that throws, before it reads the ledger. *)
Lemma signedRoute_rejects W op fileKey c d walletAddress signature rejection :
  present (walletAddressHeader c) = Some walletAddress ->
  present (signatureHeader c) = Some signature ->
  signatureRejection W walletAddress (canonicalMessage op fileKey) signature
  = Some rejection ->
  signedRoute W op fileKey c d = (d, rejection).
Proof.
  intros Hw Hs Hrej.
  destruct op; simpl in *;
    unfold download, listFiles, fileInfo, deleteFile, renew, canonicalMessage;
    by rewrite Hw, Hs, Hrej.
Qed.

(** C8: on every signed route, a signature verification that throws is
    caught and answered 401, as is a signature that verifies false; the
    state is left as it was. For the renew route this is the answer once
    the payment gate has let the request through. *)
Theorem signature_failure_is_unauthenticated
    W cfg c st op fileKey walletAddress signature :
  signedRequest c = Some (op, fileKey) ->
  present (walletAddressHeader c) = Some walletAddress ->
  present (signatureHeader c) = Some signature ->
  (priced c = true -> unsettled W c = false) ->
  let verdict := verifyMessage W walletAddress (canonicalMessage op fileKey) signature in
  (verdict = Throws ->
   fetch W cfg c st = (st, failure SignatureVerificationFailed 401))
  /\ (verdict = Returns false ->
      fetch W cfg c st = (st, failure InvalidSignature 401))
  /\ (verdict <> Returns true ->
      (fetch W cfg c st).1 = st /\ status (fetch W cfg c st).2 = 401%Z).
Proof.
  intros Hroute Hw Hs Hgate verdict.
  assert (fetch W cfg c st = onLedger (signedRoute W op fileKey c) st) as ->.
  { rewrite <- (routes_signed W cfg c op fileKey Hroute).
    destruct (priced c) eqn:Hp.
    - by apply fetch_priced_settled, Hgate.
    - by apply fetch_unpriced. }
  assert (forall rejection,
             signatureRejection W walletAddress (canonicalMessage op fileKey) signature
             = Some rejection ->
             onLedger (signedRoute W op fileKey c) st = (st, rejection)) as Hrej.
  { intros rejection Hr. apply onLedger_unchanged.
    by apply (signedRoute_rejects _ _ _ _ _ walletAddress signature). }
  unfold signatureRejection in Hrej. fold verdict in Hrej.
  split; [|split].
  - intros Hv. apply Hrej. by rewrite Hv.
  - intros Hv. apply Hrej. by rewrite Hv.
  - intros Hv. destruct verdict as [[]|]; [done| |]; by rewrite (Hrej _ eq_refl).
Qed.

(** Alice's read arrives with a signature header that is no signature. *)
Lemma signature_failure_witness :
  verifyMessage Malformed.world Sample.alice Sample.helloKey "not a signature" = Throws
  /\ fetch Malformed.world Sample.config Malformed.request Sample.state
     = (Sample.state, failure SignatureVerificationFailed 401).
Proof.
  split; [reflexivity|].
  refine (proj1 (signature_failure_is_unauthenticated
                   Malformed.world Sample.config Malformed.request Sample.state
                   ReadFile Sample.helloKey Sample.alice "not a signature"
                   _ eq_refl eq_refl _) eq_refl).
  - by vm_compute.
  - discriminate.
Defined.

(** ** Owners are stored lowercased *)

Section LedgerInvariant.

Variable W : World.
Variable cfg : Config.
Variable c : Request.

Lemma invariant_recordUpload d d' record :
  ledgerInvariant d -> recordUpload d record = Returns d' -> ledgerInvariant d'.
Proof.
  unfold recordUpload. intros Hd.
  destruct (d !! fileKey record); [done|]. intros [= <-].
  apply map_Forall_insert_2; [|done].
  split; [done|]. simpl. apply toLowerCase_idempotent.
Qed.

Lemma invariant_deleteRecord d key :
  ledgerInvariant d -> ledgerInvariant (deleteRecord d key).1.
Proof. intros Hd. by apply map_Forall_delete. Qed.

Lemma invariant_updateExpiresAt d newExpires key :
  ledgerInvariant d -> ledgerInvariant (updateExpiresAt d newExpires key).
Proof.
  intros Hd k r. unfold updateExpiresAt.
  destruct (decide (key = k)) as [->|Hne].
  - rewrite lookup_alter_eq.
    destruct (d !! k) as [old|] eqn:Hold; [|done].
    intros [= <-]. by apply (Hd k old).
  - rewrite lookup_alter_ne by done. apply Hd.
Qed.

Lemma invariant_cleanupExpiredRecords d serverTime :
  ledgerInvariant d -> ledgerInvariant (cleanupExpiredRecords serverTime d).1.
Proof.
  intros Hd k r [Hk _]%map_lookup_filter_Some. by apply Hd.
Qed.

Lemma keepsInvariant_upload : keepsInvariant (upload W cfg c).
Proof.
  intros d Hd. unfold upload.
  repeat case_match; simpl; try done.
  by eapply invariant_recordUpload.
Qed.

Lemma keepsInvariant_signedRoute op fileKey :
  keepsInvariant (signedRoute W op fileKey c).
Proof.
  intros d Hd.
  destruct op; simpl; unfold download, listFiles, fileInfo, deleteFile, renew;
    repeat case_match; simpl;
    first [ done
          | by apply (invariant_deleteRecord d fileKey)
          | by apply invariant_updateExpiresAt ].
Qed.

Lemma invariant_routes st :
  ledgerInvariant (db st) -> ledgerInvariant (db (routes W cfg c st).1).
Proof.
  intros Hd.
  destruct (signedRequest c) as [[op fileKey]|] eqn:Hsigned.
  - rewrite (routes_signed W cfg c op fileKey Hsigned). unfold onLedger.
    pose proof (keepsInvariant_signedRoute op fileKey (db st) Hd).
    by destruct (signedRoute W op fileKey c (db st)).
  - revert Hsigned. unfold signedRequest, routes, notFound.
    pose proof (keepsInvariant_upload (db st) Hd).
    repeat case_match; intros; simplify_eq/=; try done.
    unfold onLedger. by destruct (upload W cfg c (db st)).
Qed.

Lemma invariant_fetch st :
  ledgerInvariant (db st) -> ledgerInvariant (db (fetch W cfg c st).1).
Proof.
  intros Hd. unfold fetch, middleware, paymentMiddleware.
  repeat case_match; simpl; auto using invariant_routes.
Qed.

End LedgerInvariant.

Lemma invariant_reachable st : reachable st -> ledgerInvariant (db st).
Proof.
  induction 1 as [|W cfg c st _ IH|serverTime st _ IH|address st _ IH]; simpl.
  - apply map_Forall_empty.
  - by apply invariant_fetch.
  - by apply invariant_cleanupExpiredRecords.
  - done.
Qed.

Lemma isOwner_stored d fileKey record address :
  getFile d fileKey = Some record ->
  toLowerCase (ownerAddress record) = ownerAddress record ->
  isOwner d fileKey address = true <-> toLowerCase address = ownerAddress record.
Proof.
  intros Hget Hlow. unfold isOwner. rewrite Hget, Hlow.
  rewrite String.eqb_eq. split; congruence.
Qed.

(** C10: in every state the server reaches, a stored record holds its
    owner lowercased: what [getFile] returns has a lowercase owner,
    [isOwner key a] holds exactly when the lowercased [a] is the stored
    owner, and [getFilesByOwner a] has the record for every such [a]. A
    successful upload stores the lowercased wallet address of its header,
    so the record is found under any casing of that address. *)
Theorem stored_owner_is_lowercase st :
  reachable st ->
  (forall fileKey record,
      getFile (db st) fileKey = Some record ->
      toLowerCase (ownerAddress record) = ownerAddress record
      /\ (forall address,
            isOwner (db st) fileKey address = true
            <-> toLowerCase address = ownerAddress record)
      /\ (forall address,
            toLowerCase address = ownerAddress record ->
            record ∈ getFilesByOwner (db st) address))
  /\ (forall W cfg c,
        method c = POST -> path c = "/upload" ->
        status (fetch W cfg c st).2 = 200%Z ->
        exists walletAddress fileKey record,
          walletAddressHeader c = Some walletAddress
          /\ db st !! fileKey = None
          /\ getFile (db (fetch W cfg c st).1) fileKey = Some record
          /\ ownerAddress record = toLowerCase walletAddress
          /\ forall recased,
               toLowerCase recased = toLowerCase walletAddress ->
               isOwner (db (fetch W cfg c st).1) fileKey recased = true
               /\ record ∈ getFilesByOwner (db (fetch W cfg c st).1) recased).
Proof.
  intros Hreach. split.
  - intros fileKey record Hget.
    destruct (invariant_reachable st Hreach fileKey record Hget) as [_ Hlow].
    split; [done|]. split; [intros address; by apply isOwner_stored|].
    intros address Haddr. apply elem_of_getFilesByOwner. eauto.
  - intros W cfg c Hm Hp H200.
    pose proof (upload_request_priced c Hm Hp) as Hpriced.
    pose proof (fetch_priced_200 _ _ _ _ Hpriced H200) as Hfetch.
    rewrite Hfetch in H200 |- *. clear Hfetch.
    rewrite (routes_upload W cfg c Hm Hp) in H200 |- *.
    unfold onLedger in H200 |- *.
    destruct (upload_200 W cfg c (db st))
      as (walletAddress & file & Hw & Hf & _ & Hfresh & Heq).
    { by destruct (upload W cfg c (db st)). }
    rewrite Heq. simpl.
    eexists walletAddress, _, _.
    split; [by apply present_Some|]. split; [exact Hfresh|].
    unfold getFile. rewrite lookup_insert_eq.
    split; [done|]. split; [done|].
    intros recased Hcase. split.
    + unfold isOwner, getFile. rewrite lookup_insert_eq. simpl.
      rewrite toLowerCase_idempotent, Hcase. apply String.eqb_refl.
    + apply elem_of_getFilesByOwner. split; [|by simpl].
      eexists. apply lookup_insert_eq.
Qed.

(** Alice uploads under a mixed-case address on a fresh server; the
    ledger holds the lowercased one and knows her under another casing. *)
Lemma stored_owner_witness :
  let st := (fetch Sample.world Sample.config
               (Sample.uploadRequest Sample.alice (Some "proof")) initialState).1 in
  exists record,
    getFile (db st) Collision.key = Some record
    /\ ownerAddress record = "0xaaaa00000000000000000000000000000000aaaa"
    /\ isOwner (db st) Collision.key "0XAAAA00000000000000000000000000000000AAAA" = true.
Proof.
  intros st.
  assert (reachable st) as Hreach by (apply reachable_request, reachable_start).
  assert (exists record, getFile (db st) Collision.key = Some record
                         /\ ownerAddress record = "0xaaaa00000000000000000000000000000000aaaa")
    as (record & Hget & Hown) by (eexists; by vm_compute).
  exists record. split; [done|]. split; [done|].
  destruct (proj1 (stored_owner_is_lowercase st Hreach) Collision.key record Hget)
    as (_ & Howner & _).
  apply Howner. by rewrite Hown.
Defined.

(** * Further properties of the server *)

(** ** Who may change the ledger *)

Lemma signatureRejection_None W walletAddress message signature :
  signatureRejection W walletAddress message signature = None ->
  verifyMessage W walletAddress message signature = Returns true.
Proof.
  unfold signatureRejection.
  by destruct (verifyMessage W walletAddress message signature) as [[]|].
Qed.

(** A signed route leaves the ledger as it was, or it was asked by the
    owner and deleted the row or moved its expiry. *)
Lemma signedRoute_effect W op fileKey c d :
  (signedRoute W op fileKey c d).1 = d
  \/ (writes op = true /\ authorisedFor W c d op fileKey
      /\ ((signedRoute W op fileKey c d).1 = delete fileKey d
          \/ exists newExpires,
               (signedRoute W op fileKey c d).1 = updateExpiresAt d newExpires fileKey)).
Proof.
  destruct op; simpl; unfold download, listFiles, fileInfo, deleteFile, renew;
    repeat case_match; simpl; try (by left); right;
    (split; [done|]); (split; [|by eauto]);
    repeat match goal with
           | H : signatureRejection _ _ _ _ = None |- _ =>
               apply signatureRejection_None in H
           | H : negb _ = false |- _ => apply negb_false_iff in H
           end;
    by eexists _, _.
Qed.

(** An upload leaves the ledger as it was or adds a row under a key that
    was free. *)
Lemma upload_effect W cfg c d :
  (upload W cfg c d).1 = d
  \/ exists fileKey record,
       d !! fileKey = None /\ (upload W cfg c d).1 = <[fileKey := record]> d.
Proof.
  destruct (decide (status (upload W cfg c d).2 = 200%Z)) as [H200|Hnot].
  - destruct (upload_200 W cfg c d H200) as (w & file & _ & _ & _ & Hfresh & Heq).
    right. rewrite Heq. eauto.
  - left. revert Hnot. unfold upload, recordUpload.
    repeat case_match; simpl; done.
Qed.

(** The gate either answers the challenge itself or hands over to the
    routes. *)
Lemma fetch_cases W cfg c st :
  (priced c = true /\ unsettled W c = true
   /\ fetch W cfg c st = (st, json (ChallengeBody (challengeOf cfg)) 402))
  \/ ((priced c = true -> unsettled W c = false)
      /\ fetch W cfg c st = routes W cfg c st).
Proof.
  destruct (priced c) eqn:Hp; [destruct (unsettled W c) eqn:Hu|].
  - left. by rewrite fetch_priced_unsettled.
  - right. by rewrite fetch_priced_settled.
  - right. by rewrite fetch_unpriced.
Qed.

Lemma routes_unsigned W cfg c st :
  signedRequest c = None ->
  routes W cfg c st = onLedger (upload W cfg c) st
  \/ (routes W cfg c st).1 = st.
Proof.
  unfold signedRequest, routes, notFound.
  repeat case_match; intros; simplify_eq/=; auto.
Qed.

Lemma onLedger_db h st : db (onLedger h st).1 = (h (db st)).1.
Proof. unfold onLedger. by destruct (h (db st)). Qed.

(** X1: a request changes or removes a row that is in the ledger only
    when it is a read, a delete or a renewal of that very key, sent with
    both headers by the wallet address that owns the row and with a
    signature that verifies. *)
Theorem only_the_owner_changes_a_row W cfg c st fileKey record :
  db st !! fileKey = Some record ->
  db (fetch W cfg c st).1 !! fileKey <> Some record ->
  exists op,
    signedRequest c = Some (op, fileKey)
    /\ writes op = true
    /\ authorisedFor W c (db st) op fileKey.
Proof.
  intros Hrow Hchanged.
  destruct (fetch_cases W cfg c st) as [(_ & _ & Heq)|[_ Heq]];
    rewrite Heq in Hchanged; [done|].
  destruct (signedRequest c) as [[op key]|] eqn:Hsigned.
  - rewrite (routes_signed W cfg c op key Hsigned), onLedger_db in Hchanged.
    destruct (signedRoute_effect W op key c (db st))
      as [Hsame|(Hw & Hauth & Heffect)]; [by rewrite Hsame in Hchanged|].
    destruct (decide (key = fileKey)) as [->|Hne]; [by eauto|].
    exfalso. apply Hchanged.
    destruct Heffect as [->|[newExpires ->]].
    + by rewrite lookup_delete_ne.
    + unfold updateExpiresAt. by rewrite lookup_alter_ne.
  - exfalso. apply Hchanged.
    destruct (routes_unsigned W cfg c st Hsigned) as [-> | ->]; [|done].
    rewrite onLedger_db.
    destruct (upload_effect W cfg c (db st)) as [->|(key & r & Hfresh & ->)]; [done|].
    rewrite lookup_insert_ne; [done|]. intros ->. by rewrite Hrow in Hfresh.
Qed.

(** Alice's DELETE removes her row; the request is hers and signed. *)
Lemma only_the_owner_witness :
  let c := Sample.request DELETE ("/file/" ++ Sample.helloKey)
             (Some Sample.alice) (Some "0x5157") None in
  exists op,
    signedRequest c = Some (op, Sample.helloKey)
    /\ writes op = true
    /\ authorisedFor Sample.world c (db Sample.state) op Sample.helloKey.
Proof.
  intros c.
  apply (only_the_owner_changes_a_row Sample.world Sample.config c Sample.state
           Sample.helloKey Sample.helloRecord).
  - by vm_compute.
  - by vm_compute.
Defined.

(** X2: a request writes at most one row: there is a key outside of
    which the ledger after the request is the ledger before it. The set
    of paid addresses is never written. *)
Theorem a_request_writes_one_row W cfg c st :
  paidAddresses (fetch W cfg c st).1 = paidAddresses st
  /\ exists fileKey,
       forall other, other <> fileKey ->
         db (fetch W cfg c st).1 !! other = db st !! other.
Proof.
  split; [apply (ledgerOnly_fetch W cfg c st)|].
  destruct (fetch_cases W cfg c st) as [(_ & _ & ->)|[_ ->]]; [by exists ""|].
  destruct (signedRequest c) as [[op key]|] eqn:Hsigned.
  - exists key. intros other Hne.
    rewrite (routes_signed W cfg c op key Hsigned), onLedger_db.
    destruct (signedRoute_effect W op key c (db st))
      as [->|(_ & _ & [->|[newExpires ->]])]; [done| |].
    + by rewrite lookup_delete_ne.
    + unfold updateExpiresAt. by rewrite lookup_alter_ne.
  - destruct (routes_unsigned W cfg c st Hsigned) as [-> | ->]; [|by exists ""].
    destruct (upload_effect W cfg c (db st)) as [Hsame|(key & r & _ & Heq)].
    + exists "". intros other _. by rewrite onLedger_db, Hsame.
    + exists key. intros other Hne. rewrite onLedger_db, Heq.
      by rewrite lookup_insert_ne.
Qed.

(** Bob's read of Alice's file leaves both the set and the ledger. *)
Lemma a_request_writes_one_row_witness :
  let c := Sample.request GET ("/file/" ++ Sample.helloKey)
             (Some Sample.bob) (Some "0x5157") None in
  paidAddresses (fetch Sample.world Sample.config c Sample.state).1
  = paidAddresses Sample.state.
Proof.
  intros c.
  exact (proj1 (a_request_writes_one_row Sample.world Sample.config c Sample.state)).
Defined.

(** ** Existence, then ownership *)

Lemma routes_fileInfo W cfg c fileKey :
  method c = GET -> path c = "/file-info/" ++ fileKey -> fileKey <> "" ->
  routes W cfg c = onLedger (fileInfo W fileKey c).
Proof.
  intros Hm Hp Hne. unfold routes. rewrite Hm, Hp.
  by rewrite (param_append "/file-info/" fileKey Hne).
Qed.

(** X3: on each of the four routes that name a key, a request whose
    signature verifies is answered 404 when the key is not in the ledger,
    whoever sends it, and 403 when the key is there and the wallet address
    is not its owner; in both cases the state is left as it was. *)
Theorem missing_key_then_wrong_owner W cfg c st op fileKey walletAddress signature :
  signedRequest c = Some (op, fileKey) -> op <> ListFiles ->
  (priced c = true -> unsettled W c = false) ->
  present (walletAddressHeader c) = Some walletAddress ->
  present (signatureHeader c) = Some signature ->
  verifyMessage W walletAddress (canonicalMessage op fileKey) signature = Returns true ->
  (getFile (db st) fileKey = None ->
   fetch W cfg c st = (st, failure FileNotFound 404))
  /\ (is_Some (getFile (db st) fileKey) ->
      isOwner (db st) fileKey walletAddress = false ->
      fetch W cfg c st = (st, failure AccessDenied 403)).
Proof.
  intros Hsigned Hop Hgate Hw Hs Hv.
  assert (fetch W cfg c st = onLedger (signedRoute W op fileKey c) st) as ->.
  { rewrite <- (routes_signed W cfg c op fileKey Hsigned).
    destruct (priced c) eqn:Hp.
    - by apply fetch_priced_settled, Hgate.
    - by apply fetch_unpriced. }
  split.
  - intros Hget. apply onLedger_unchanged.
    destruct op; [|done| | |]; simpl;
      unfold download, fileInfo, deleteFile, renew, signatureRejection;
      by rewrite Hw, Hs, Hv, Hget.
  - intros [record Hget] Hown. apply onLedger_unchanged.
    destruct op; [|done| | |]; simpl;
      unfold download, fileInfo, deleteFile, renew, signatureRejection;
      by rewrite Hw, Hs, Hv, Hget, Hown.
Qed.

(** Bob asks for the metadata of Alice's file; then for a key nobody has. *)
Lemma missing_key_then_wrong_owner_witness :
  fetch Sample.world Sample.config
    (Sample.request GET ("/file-info/" ++ Sample.helloKey)
       (Some Sample.bob) (Some "0x5157") None) Sample.state
  = (Sample.state, failure AccessDenied 403)
  /\ fetch Sample.world Sample.config
       (Sample.request GET "/file-info/nobody/1-x" (Some Sample.bob) (Some "0x5157") None)
       Sample.state
     = (Sample.state, failure FileNotFound 404).
Proof.
  split.
  - refine (proj2 (missing_key_then_wrong_owner Sample.world Sample.config
                     (Sample.request GET ("/file-info/" ++ Sample.helloKey)
                        (Some Sample.bob) (Some "0x5157") None)
                     Sample.state FileInformation Sample.helloKey Sample.bob "0x5157"
                     _ _ _ eq_refl eq_refl eq_refl) _ _);
      [by vm_compute | done | done | by eexists; vm_compute | by vm_compute].
  - refine (proj1 (missing_key_then_wrong_owner Sample.world Sample.config
                     (Sample.request GET "/file-info/nobody/1-x"
                        (Some Sample.bob) (Some "0x5157") None)
                     Sample.state FileInformation "nobody/1-x" Sample.bob "0x5157"
                     _ _ _ eq_refl eq_refl eq_refl) _);
      [by vm_compute | done | done | by vm_compute].
Defined.

(** ** Reading *)

Lemma onLedger_pair h st :
  onLedger h st
  = ({| db := (h (db st)).1; paidAddresses := paidAddresses st |}, (h (db st)).2).
Proof. unfold onLedger. by destruct (h (db st)). Qed.

Lemma unpriced_GET c : method c = GET -> priced c = false.
Proof. intros Hm. apply unpriced_unless_POST. by rewrite Hm. Qed.

(** X4: a read by the owner of a row that is past its expiry is answered
    410 and removes the row; a read of a live row whose blob the store no
    longer has is answered 404 and removes the row too; a read that the
    store fails leaves the row. Once the row is removed, the same signed
    read is answered 404 "File not found". *)
Theorem read_purges_a_dead_row W cfg c st fileKey record walletAddress signature :
  method c = GET -> path c = "/file/" ++ fileKey -> fileKey <> "" ->
  present (walletAddressHeader c) = Some walletAddress ->
  present (signatureHeader c) = Some signature ->
  verifyMessage W walletAddress fileKey signature = Returns true ->
  getFile (db st) fileKey = Some record ->
  isOwner (db st) fileKey walletAddress = true ->
  let purged := {| db := delete fileKey (db st); paidAddresses := paidAddresses st |} in
  ((expiresAt record < clock W 0)%Z ->
   fetch W cfg c st = (purged, failure FileExpired 410))
  /\ ((clock W 0 <= expiresAt record)%Z -> s3_get W fileKey = Returns None ->
      fetch W cfg c st = (purged, failure FileNotFoundInStorage 404))
  /\ ((clock W 0 <= expiresAt record)%Z -> s3_get W fileKey = Throws ->
      fetch W cfg c st = (st, failure DownloadFailed 500))
  /\ (forall W',
        verifyMessage W' walletAddress fileKey signature = Returns true ->
        fetch W' cfg c purged = (purged, failure FileNotFound 404)).
Proof.
  intros Hm Hp Hne Hw Hs Hv Hget Hown purged.
  assert (forall V st0, fetch V cfg c st0 = onLedger (download V fileKey c) st0) as Hfetch.
  { intros V st0. rewrite fetch_unpriced by by apply unpriced_GET.
    by rewrite (routes_download V cfg c fileKey Hm Hp Hne). }
  repeat split.
  - intros Hpast. rewrite Hfetch, onLedger_pair.
    unfold download, signatureRejection, isExpired, canonicalMessage.
    rewrite Hw, Hs, Hv, Hget, Hown. simpl.
    by destruct (Z.ltb_spec (expiresAt record) (clock W 0)); [|lia].
  - intros Hlive Hnone. rewrite Hfetch, onLedger_pair.
    unfold download, signatureRejection, isExpired, canonicalMessage.
    rewrite Hw, Hs, Hv, Hget, Hown, Hnone. simpl.
    by destruct (Z.ltb_spec (expiresAt record) (clock W 0)); [lia|].
  - intros Hlive Hthrows. rewrite Hfetch, onLedger_pair.
    unfold download, signatureRejection, isExpired, canonicalMessage.
    rewrite Hw, Hs, Hv, Hget, Hown, Hthrows. simpl.
    destruct (Z.ltb_spec (expiresAt record) (clock W 0)); [lia|]. by destruct st.
  - intros W' Hv'. rewrite Hfetch. apply onLedger_unchanged.
    apply (download_missing W' fileKey c _ walletAddress signature); try done.
    apply lookup_delete_eq.
Qed.

(** Alice reads her lapsed file: 410, and the row is gone. *)
Lemma read_purges_witness :
  let c := Sample.request GET ("/file/" ++ fileKey Listing.lapsed)
             (Some Sample.alice) (Some "0x5157") None in
  status (fetch Sample.world Sample.config c Listing.state).2 = 410%Z
  /\ getFile (db (fetch Sample.world Sample.config c Listing.state).1)
       (fileKey Listing.lapsed) = None.
Proof.
  intros c.
  rewrite (proj1 (read_purges_a_dead_row Sample.world Sample.config c Listing.state
                    (fileKey Listing.lapsed) Listing.lapsed Sample.alice "0x5157"
                    eq_refl eq_refl ltac:(discriminate) eq_refl eq_refl eq_refl
                    ltac:(by vm_compute) ltac:(by vm_compute))
                 ltac:(by vm_compute)).
  split; [done|]. apply lookup_delete_eq.
Defined.

(** X5: the metadata route never writes to the ledger, whatever it is
    sent; to the owner it answers 200 with the record and the flag
    [isExpired], also for a row past its expiry, which it leaves in
    place. *)
Theorem file_info_flags_expiry_and_keeps_the_row
    W cfg c st fileKey record walletAddress signature :
  method c = GET -> path c = "/file-info/" ++ fileKey -> fileKey <> "" ->
  (fetch W cfg c st).1 = st
  /\ (present (walletAddressHeader c) = Some walletAddress ->
      present (signatureHeader c) = Some signature ->
      verifyMessage W walletAddress fileKey signature = Returns true ->
      getFile (db st) fileKey = Some record ->
      isOwner (db st) fileKey walletAddress = true ->
      fetch W cfg c st
      = (st, json (InfoBody (toFileInfo record)
                     (bool_decide (expiresAt record < clock W 0)%Z)) 200)).
Proof.
  intros Hm Hp Hne.
  rewrite fetch_unpriced by by apply unpriced_GET.
  rewrite (routes_fileInfo W cfg c fileKey Hm Hp Hne).
  split.
  - rewrite onLedger_pair. simpl.
    assert ((fileInfo W fileKey c (db st)).1 = db st) as ->
      by (unfold fileInfo; by repeat case_match).
    by destruct st.
  - intros Hw Hs Hv Hget Hown. apply onLedger_unchanged.
    unfold fileInfo, signatureRejection, isExpired, canonicalMessage.
    rewrite Hw, Hs, Hv, Hget, Hown. simpl. do 3 f_equal.
    by destruct (Z.ltb_spec (expiresAt record) (clock W 0));
      [rewrite bool_decide_eq_true_2 | rewrite bool_decide_eq_false_2 by lia].
Qed.

(** Alice asks for the metadata of her lapsed file. *)
Lemma file_info_witness :
  fetch Sample.world Sample.config
    (Sample.request GET ("/file-info/" ++ fileKey Listing.lapsed)
       (Some Sample.alice) (Some "0x5157") None) Listing.state
  = (Listing.state, json (InfoBody (toFileInfo Listing.lapsed) true) 200).
Proof.
  refine (proj2 (file_info_flags_expiry_and_keeps_the_row
                   Sample.world Sample.config
                   (Sample.request GET ("/file-info/" ++ fileKey Listing.lapsed)
                      (Some Sample.alice) (Some "0x5157") None)
                   Listing.state (fileKey Listing.lapsed) Listing.lapsed
                   Sample.alice "0x5157" eq_refl eq_refl _)
                eq_refl eq_refl eq_refl _ _);
    [discriminate | by vm_compute | by vm_compute].
Defined.




(** ** The cleanup job *)




(** ** Reading and listing agree on expiry *)

(** X8: in every state the server reaches, the read route and the list
    route draw the line at the same instant: a stored record is listed
    for its owner at a server time exactly when [isExpired] is false for
    its key at that time, the instant of expiry itself included. *)
Theorem listed_exactly_when_not_expired st serverTime fileKey record :
  reachable st ->
  getFile (db st) fileKey = Some record ->
  isExpired serverTime (db st) fileKey = false
  <-> record ∈ activeFiles serverTime (getFilesByOwner (db st) (ownerAddress record)).
Proof.
  intros Hreach Hget.
  destruct (invariant_reachable st Hreach fileKey record Hget) as [_ Hlow].
  unfold isExpired, activeFiles. rewrite Hget, Z.ltb_ge.
  rewrite list_elem_of_filter, elem_of_getFilesByOwner.
  split; [|tauto]. intros Hlive. split; [done|]. split; [by eauto|done].
Qed.

(** At the very instant Alice's upload expires it is neither expired nor
    left out of her listing. *)
Lemma listed_exactly_when_not_expired_witness :
  let st := (fetch Sample.world Sample.config
               (Sample.uploadRequest Sample.alice (Some "proof")) initialState).1 in
  exists record,
    getFile (db st) Collision.key = Some record
    /\ isExpired (expiresAt record) (db st) Collision.key = false
    /\ record ∈ activeFiles (expiresAt record)
                  (getFilesByOwner (db st) (ownerAddress record)).
Proof.
  intros st.
  assert (reachable st) as Hreach by (apply reachable_request, reachable_start).
  assert (exists record, getFile (db st) Collision.key = Some record)
    as [record Hget] by (eexists; by vm_compute).
  exists record. split; [done|].
  assert (isExpired (expiresAt record) (db st) Collision.key = false) as Hlive.
  { unfold isExpired. rewrite Hget. apply Z.ltb_irrefl. }
  split; [done|].
  by apply (listed_exactly_when_not_expired st (expiresAt record) Collision.key record
              Hreach Hget).
Defined.

(** ** The set of paid addresses *)

Lemma toLowerCase_inj_eqb a b :
  toLowerCase a = toLowerCase b <-> String.eqb (toLowerCase a) (toLowerCase b) = true.
Proof. by rewrite String.eqb_eq. Qed.

(** X9: the recorders of payment.ts keep a set of lowercased addresses:
    after [recordPaid a], [hasPaid] holds for every casing of [a] and for
    what it held for before, and for nothing else; the ledger is not
    touched; and the pair [createPaymentMiddleware] returns reads and
    writes the same set. *)
Theorem paid_addresses_ignore_case address st :
  (forall asked,
      hasPaid asked (recordPaid address st) = true
      <-> toLowerCase asked = toLowerCase address \/ hasPaid asked st = true)
  /\ db (recordPaid address st) = db st
  /\ (forall W cfg pm,
        createPaymentMiddleware W cfg = Returns pm ->
        pm_recordPayment pm address st = recordPaid address st
        /\ forall asked, pm_isAddressPaid pm asked st = hasPaid asked st).
Proof.
  split; [|split; [done|]].
  - intros asked. unfold hasPaid, recordPaid. simpl.
    rewrite !bool_decide_eq_true. set_solver.
  - intros W cfg pm. unfold createPaymentMiddleware. simpl.
    by intros [= <-].
Qed.

(** Alice is recorded under one casing and found under another; Bob
    was in the set before and still is. *)
Lemma paid_addresses_witness :
  hasPaid "0XAAAA00000000000000000000000000000000AAAA"
    (recordPaid Sample.alice Sample.state) = true
  /\ hasPaid Sample.bob (recordPaid Sample.alice Sample.state) = true.
Proof.
  split.
  - apply (proj1 (paid_addresses_ignore_case Sample.alice Sample.state)). by left.
  - apply (proj1 (paid_addresses_ignore_case Sample.alice Sample.state)). right.
    by vm_compute.
Defined.

(** ** What is answered 402 *)

(** No route answers 402. *)
Lemma routes_never_402 W cfg c st : status (routes W cfg c st).2 <> 402%Z.
Proof.
  unfold routes, notFound, onLedger.
  repeat case_match; simpl; try done;
    match goal with
    | H : ?h = (_, ?r) |- status ?r <> _ =>
        revert H;
        unfold upload, download, listFiles, fileInfo, deleteFile, renew,
          signatureRejection, recordUpload, failure, json;
        repeat case_match; intros; simplify_eq/=; done
    end.
Qed.

(** X10: a request is answered 402 exactly when it is priced, a POST of
    [/upload] or of a path under [/renew/], and carries no proof that
    settles; the answer is then the challenge of the configuration and the
    state is left as it was. Nothing else is ever charged: no GET, no
    DELETE, no listing. *)
Theorem challenged_exactly_when_priced_and_unsettled W cfg c st :
  (status (fetch W cfg c st).2 = 402%Z <-> priced c = true /\ unsettled W c = true)
  /\ (status (fetch W cfg c st).2 = 402%Z ->
      fetch W cfg c st = (st, json (ChallengeBody (challengeOf cfg)) 402))
  /\ (method c <> POST -> status (fetch W cfg c st).2 <> 402%Z).
Proof.
  destruct (fetch_cases W cfg c st) as [(Hp & Hu & Heq)|[Hgate Heq]]; rewrite Heq.
  - split; [done|]. split; [done|]. intros Hm.
    by rewrite (unpriced_unless_POST c Hm) in Hp.
  - pose proof (routes_never_402 W cfg c st) as Hnot.
    split; [|split]; try done.
    split; [done|]. intros [Hp Hu]. by rewrite (Hgate Hp) in Hu.
Qed.

(** Alice's unpaid renewal is challenged; her listing is not. *)
Lemma challenged_witness :
  status (fetch Sample.world Sample.config
            (Sample.request POST ("/renew/" ++ Sample.helloKey)
               (Some Sample.alice) (Some "0x5157") None) Sample.state).2 = 402%Z
  /\ status (fetch Sample.world Sample.config Listing.request Sample.state).2 <> 402%Z.
Proof.
  split.
  - by apply (proj1 (challenged_exactly_when_priced_and_unsettled
                       Sample.world Sample.config _ Sample.state)).
  - by apply (proj2 (proj2 (challenged_exactly_when_priced_and_unsettled
                              Sample.world Sample.config Listing.request Sample.state))).
Defined.

(** ** Renewals in a row *)

Lemma renew_by_owner W fileKey c d walletAddress signature record :
  present (walletAddressHeader c) = Some walletAddress ->
  present (signatureHeader c) = Some signature ->
  verifyMessage W walletAddress ("renew:" ++ fileKey) signature = Returns true ->
  getFile d fileKey = Some record ->
  isOwner d fileKey walletAddress = true ->
  let newExpires := addDays (timeZone W) (Z.max (clock W 0) (expiresAt record)) 10 in
  renew W fileKey c d
  = (<[fileKey := withExpiresAt newExpires record]> d,
     json (RenewBody fileKey (expiresAt record) newExpires) 200).
Proof.
  intros Hw Hs Hv Hget Hown newExpires.
  unfold renew, signatureRejection, canonicalMessage.
  rewrite Hw, Hs, Hv, Hget, Hown. simpl. f_equal.
  unfold updateExpiresAt. apply map_eq. intros key.
  destruct (decide (fileKey = key)) as [<-|Hne].
  - unfold getFile in Hget. by rewrite lookup_alter_eq, lookup_insert_eq, Hget.
  - by rewrite lookup_alter_ne, lookup_insert_ne.
Qed.

(** X11: renewals stack. Two renewals of a record by its owner, served
    on servers whose zones have fixed offsets, leave every field of the
    record but the expiry as it was and an expiry of
    [max(now2, max(now1, expiry) + 10 days) + 10 days]: at least twenty
    days past the old expiry, and exactly that when neither renewal came
    after the expiry then in force. *)
Theorem renewals_stack W1 W2 c1 c2 d fileKey record w1 s1 w2 s2 offset1 offset2 :
  present (walletAddressHeader c1) = Some w1 ->
  present (signatureHeader c1) = Some s1 ->
  verifyMessage W1 w1 ("renew:" ++ fileKey) s1 = Returns true ->
  present (walletAddressHeader c2) = Some w2 ->
  present (signatureHeader c2) = Some s2 ->
  verifyMessage W2 w2 ("renew:" ++ fileKey) s2 = Returns true ->
  getFile d fileKey = Some record ->
  isOwner d fileKey w1 = true -> isOwner d fileKey w2 = true ->
  timeZone W1 = fixedZone offset1 -> timeZone W2 = fixedZone offset2 ->
  let first := (Z.max (clock W1 0) (expiresAt record) + 10 * msPerDay)%Z in
  let second := (Z.max (clock W2 0) first + 10 * msPerDay)%Z in
  let d2 := (renew W2 fileKey c2 (renew W1 fileKey c1 d).1).1 in
  getFile d2 fileKey = Some (withExpiresAt second record)
  /\ (renew W2 fileKey c2 (renew W1 fileKey c1 d).1).2
     = json (RenewBody fileKey first second) 200
  /\ (expiresAt record + 20 * msPerDay <= second)%Z
  /\ ((clock W1 0 <= expiresAt record)%Z -> (clock W2 0 <= first)%Z ->
      second = (expiresAt record + 20 * msPerDay)%Z).
Proof.
  intros Hw1 Hs1 Hv1 Hw2 Hs2 Hv2 Hget Hown1 Hown2 Hz1 Hz2 first second d2.
  assert (renew W1 fileKey c1 d
          = (<[fileKey := withExpiresAt first record]> d,
             json (RenewBody fileKey (expiresAt record) first) 200)) as Hfirst.
  { rewrite (renew_by_owner W1 fileKey c1 d w1 s1 record) by done.
    by rewrite Hz1, addDays_fixedZone. }
  assert (renew W2 fileKey c2 (<[fileKey := withExpiresAt first record]> d)
          = (<[fileKey := withExpiresAt second (withExpiresAt first record)]>
               (<[fileKey := withExpiresAt first record]> d),
             json (RenewBody fileKey first second) 200)) as Hsecond.
  { rewrite (renew_by_owner W2 fileKey c2 _ w2 s2 (withExpiresAt first record));
      try done.
    - by rewrite Hz2, addDays_fixedZone.
    - unfold getFile. apply lookup_insert_eq.
    - unfold isOwner, getFile in *. rewrite Hget in Hown2.
      by rewrite lookup_insert_eq. }
  subst d2. rewrite Hfirst. simpl. rewrite Hsecond. simpl.
  split; [unfold getFile; by rewrite lookup_insert_eq|].
  split; [done|]. subst first second. unfold msPerDay. split; lia.
Qed.

(** Alice renews her file twice before it lapses. *)
Lemma renewals_stack_witness :
  let c := LongLease.renewal in
  let d2 := (renew Sample.world Sample.helloKey c
               (renew Sample.world Sample.helloKey c (db Sample.state)).1).1 in
  getFile d2 Sample.helloKey
  = Some (withExpiresAt (1699999999000 + 30 * msPerDay) Sample.helloRecord).
Proof.
  intros c d2.
  exact (proj1 (renewals_stack Sample.world Sample.world c c (db Sample.state)
                  Sample.helloKey Sample.helloRecord
                  Sample.alice "0x5157" Sample.alice "0x5157" 0 0
                  eq_refl eq_refl eq_refl eq_refl eq_refl eq_refl
                  ltac:(by vm_compute) ltac:(by vm_compute) ltac:(by vm_compute)
                  eq_refl eq_refl)).
Defined.

(** ** The messages that are signed *)

(** The signed messages keep the intents apart. A message signed
    for a delete is never the message of a renewal or of a listing, and a
    renewal's is never a listing's, whatever the keys; a delete or renew
    message names one key only. A read and a metadata request of the same
    key sign the same message. *)
Lemma signed_messages_keep_intents_apart key key' :
  canonicalMessage DeleteFile key <> canonicalMessage RenewFile key'
  /\ canonicalMessage DeleteFile key <> canonicalMessage ListFiles key'
  /\ canonicalMessage RenewFile key <> canonicalMessage ListFiles key'
  /\ (canonicalMessage DeleteFile key = canonicalMessage DeleteFile key' <-> key = key')
  /\ (canonicalMessage RenewFile key = canonicalMessage RenewFile key' <-> key = key')
  /\ canonicalMessage ReadFile key = canonicalMessage FileInformation key.
Proof.
  simpl. split; [done|]. split; [done|]. split; [done|].
  split; [|split; [|done]]; (split; [intros [= H]; exact H | by intros ->]).
Qed.

(** X12: a signature made for deleting a key is of no use for another
    intent. If the signature a request carries verifies for its wallet
    address over the delete message of [key] only, then the request is
    answered 401 unless it is the delete of [key] itself, or a read or
    metadata request for the key that is spelled [delete:key]. *)
Theorem delete_signature_serves_the_delete_only
    W cfg c st key op asked walletAddress signature :
  (forall message,
      verifyMessage W walletAddress message signature = Returns true ->
      message = "delete:" ++ key) ->
  signedRequest c = Some (op, asked) ->
  present (walletAddressHeader c) = Some walletAddress ->
  present (signatureHeader c) = Some signature ->
  (priced c = true -> unsettled W c = false) ->
  status (fetch W cfg c st).2 <> 401%Z ->
  (op = DeleteFile /\ asked = key)
  \/ ((op = ReadFile \/ op = FileInformation) /\ asked = "delete:" ++ key).
Proof.
  intros Honly Hsigned Hw Hs Hgate Hnot.
  destruct (verifyMessage W walletAddress (canonicalMessage op asked) signature)
    as [[]|] eqn:Hv.
  - apply Honly in Hv. destruct op; simpl in Hv.
    + right. by split; [left|].
    + done.
    + right. by split; [right|].
    + left. split; [done|]. by injection Hv.
    + done.
  - exfalso. apply Hnot.
    assert (fetch W cfg c st = onLedger (signedRoute W op asked c) st) as ->.
    { rewrite <- (routes_signed W cfg c op asked Hsigned).
      destruct (priced c) eqn:Hp;
        [by apply fetch_priced_settled, Hgate | by apply fetch_unpriced]. }
    rewrite onLedger_pair.
    rewrite (signedRoute_rejects W op asked c (db st) walletAddress signature
               (failure InvalidSignature 401)); [done..|].
    unfold signatureRejection. by rewrite Hv.
  - exfalso. apply Hnot.
    assert (fetch W cfg c st = onLedger (signedRoute W op asked c) st) as ->.
    { rewrite <- (routes_signed W cfg c op asked Hsigned).
      destruct (priced c) eqn:Hp;
        [by apply fetch_priced_settled, Hgate | by apply fetch_unpriced]. }
    rewrite onLedger_pair.
    rewrite (signedRoute_rejects W op asked c (db st) walletAddress signature
               (failure SignatureVerificationFailed 401)); [done..|].
    unfold signatureRejection. by rewrite Hv.
Qed.

(** Alice's delete signature deletes her file; sent with a renewal of
    the same file it is answered 401. *)
Lemma delete_signature_witness :
  let remove := Sample.request DELETE ("/file/" ++ Sample.helloKey)
                  (Some Sample.alice) (Some "0x5157") None in
  let again := Sample.request POST ("/renew/" ++ Sample.helloKey)
                 (Some Sample.alice) (Some "0x5157") (Some "proof") in
  status (fetch Scoped.world Sample.config remove Sample.state).2 = 200%Z
  /\ status (fetch Scoped.world Sample.config again Sample.state).2 = 401%Z.
Proof.
  intros remove again. split; [by vm_compute|].
  destruct (decide (status (fetch Scoped.world Sample.config again Sample.state).2
                    = 401%Z)) as [H401|Hnot]; [done|].
  exfalso.
  destruct (delete_signature_serves_the_delete_only
              Scoped.world Sample.config again Sample.state Sample.helloKey
              RenewFile Sample.helloKey Sample.alice "0x5157")
    as [[Hop _]|[[Hop|Hop] _]]; try done.
Defined.

(** ** What an upload writes *)

(** X13: an upload writes to the ledger only when it is answered 200,
    and then the payment proof had settled, the file was within the size
    limit, the blob store had acknowledged the write, and the one change
    is a new row under a key that was free: the lowercased wallet
    address as owner, the file's name, type and size, the later clock
    reading as upload time. Every row already there is as it was. *)
Theorem upload_writes_one_fresh_row_on_200 W cfg c st :
  method c = POST -> path c = "/upload" ->
  (status (fetch W cfg c st).2 <> 200%Z -> (fetch W cfg c st).1 = st)
  /\ (status (fetch W cfg c st).2 = 200%Z ->
      exists walletAddress file,
        unsettled W c = false
        /\ present (walletAddressHeader c) = Some walletAddress
        /\ formData c = Returns (Some file)
        /\ (fileSize file <= maxSizeBytes cfg)%Z
        /\ let key := generateKey walletAddress (clock W 0) (name file) in
           let mime := orElse (type file) "application/octet-stream" in
           s3_put W key (content file) mime = Returns true
           /\ db st !! key = None
           /\ db (fetch W cfg c st).1
              = <[key := {| fileKey := key;
                            ownerAddress := toLowerCase walletAddress;
                            originalFilename := name file;
                            contentType := mime;
                            sizeBytes := fileSize file;
                            uploadedAt := clock W 1;
                            expiresAt := addDays (timeZone W) (clock W 1)
                                           (expirationDays cfg) |}]> (db st)).
Proof.
  intros Hm Hp.
  pose proof (upload_request_priced c Hm Hp) as Hpriced.
  destruct (fetch_cases W cfg c st) as [(_ & Hu & Heq)|[Hgate Heq]]; rewrite Heq.
  { split; [done|]. simpl. done. }
  rewrite (routes_upload W cfg c Hm Hp), onLedger_pair. simpl.
  split.
  - intros Hnot.
    assert ((upload W cfg c (db st)).1 = db st) as ->; [|by destruct st].
    revert Hnot. unfold upload, recordUpload. by repeat case_match.
  - intros H200.
    destruct (upload_200 W cfg c (db st) H200)
      as (walletAddress & file & Hw & Hf & Hsize & Hfresh & Hup).
    exists walletAddress, file.
    split; [by apply Hgate|]. split; [done|]. split; [done|]. split; [done|].
    simpl. split; [|split; [done | by rewrite Hup]].
    revert H200. unfold upload. rewrite Hw, Hf.
    destruct (Z.ltb_spec (maxSizeBytes cfg) (fileSize file)); [lia|].
    by destruct (s3_put W _ _ _) as [[]|].
Qed.

(** Alice's paid upload on a fresh server. *)
Lemma upload_writes_witness :
  let c := Sample.uploadRequest Sample.alice (Some "proof") in
  status (fetch Sample.world Sample.config c initialState).2 = 200%Z
  /\ exists record,
       db (fetch Sample.world Sample.config c initialState).1
       = {[ Collision.key := record ]}
       /\ ownerAddress record = "0xaaaa00000000000000000000000000000000aaaa".
Proof.
  intros c.
  assert (status (fetch Sample.world Sample.config c initialState).2 = 200%Z)
    as H200 by by vm_compute.
  split; [done|].
  destruct (proj2 (upload_writes_one_fresh_row_on_200
                     Sample.world Sample.config c initialState eq_refl eq_refl) H200)
    as (walletAddress & file & _ & Hw & Hf & _ & _ & _ & Hdb).
  injection Hw as <-. injection Hf as <-.
  eexists. split; [exact Hdb|]. reflexivity.
Defined.

(** X14: a file that was uploaded shows in its owner's listing. After
    an upload answered 200, a listing asked by the uploading address, in
    any casing, with a signature that verifies and no later than the
    expiry, is answered 200 and has the new file: its key, name, type,
    size, upload time and expiry. *)
Theorem upload_then_list W cfg c st :
  method c = POST -> path c = "/upload" ->
  status (fetch W cfg c st).2 = 200%Z ->
  exists walletAddress file key expires,
    walletAddressHeader c = Some walletAddress
    /\ formData c = Returns (Some file)
    /\ (fetch W cfg c st).2
       = json (UploadBody key (fileSize file) (clock W 1) expires) 200
    /\ forall W' cfg' c' recased signature,
         method c' = GET -> path c' = "/files" ->
         present (walletAddressHeader c') = Some recased ->
         toLowerCase recased = toLowerCase walletAddress ->
         present (signatureHeader c') = Some signature ->
         verifyMessage W' recased "list-files" signature = Returns true ->
         (clock W' 0 <= expires)%Z ->
         exists files,
           fetch W' cfg' c' (fetch W cfg c st).1
           = ((fetch W cfg c st).1, json (ListBody files (length files)) 200)
           /\ {| infoFileKey := key;
                 infoFilename := name file;
                 infoContentType := orElse (type file) "application/octet-stream";
                 infoSize := fileSize file;
                 infoUploadedAt := clock W 1;
                 infoExpiresAt := expires |} ∈ files.
Proof.
  intros Hm Hp H200.
  pose proof (upload_request_priced c Hm Hp) as Hpriced.
  pose proof (fetch_priced_200 _ _ _ _ Hpriced H200) as Hfetch.
  rewrite Hfetch in H200 |- *. clear Hfetch.
  rewrite (routes_upload W cfg c Hm Hp) in H200 |- *.
  rewrite onLedger_pair in H200 |- *. simpl in H200.
  destruct (upload_200 W cfg c (db st) H200)
    as (walletAddress & file & Hw & Hf & _ & _ & Heq).
  rewrite Heq. simpl.
  eexists walletAddress, file, _, _.
  split; [by apply present_Some|]. split; [done|]. split; [done|].
  intros W' cfg' c' recased signature Hm' Hp' Hw' Hcase Hs' Hv' Hlive.
  rewrite fetch_unpriced by by apply unpriced_GET.
  rewrite (routes_listFiles W' cfg' c' Hm' Hp').
  match goal with
  | |- context [ {| db := ?d; paidAddresses := _ |} ] =>
      exists (toFileInfo <$> activeFiles (clock W' 0) (getFilesByOwner d recased))
  end.
  split.
  - apply onLedger_unchanged. simpl.
    unfold listFiles, signatureRejection, canonicalMessage.
    rewrite Hw', Hs', Hv'. by rewrite length_fmap.
  - apply list_elem_of_fmap. eexists. split; [|
      apply list_elem_of_filter; split; [|
        apply elem_of_getFilesByOwner; split; [eexists; apply lookup_insert_eq|]]].
    + reflexivity.
    + exact Hlive.
    + simpl. by rewrite Hcase.
Qed.

(** Alice uploads [hello.txt] and lists her files. *)
Lemma upload_then_list_witness :
  let upload := Sample.uploadRequest Sample.alice (Some "proof") in
  let st' := (fetch Sample.world Sample.config upload initialState).1 in
  let list := Sample.request GET "/files" (Some Sample.alice) (Some "0x5157") None in
  exists files,
    (fetch Sample.world Sample.config list st').2
    = json (ListBody files (length files)) 200
    /\ exists info, info ∈ files /\ infoFilename info = "hello.txt".
Proof.
  intros upload st' list.
  destruct (upload_then_list Sample.world Sample.config upload initialState
              eq_refl eq_refl ltac:(by vm_compute))
    as (walletAddress & file & key & expires & Hw & Hf & Hbody & Hlist).
  injection Hw as <-. injection Hf as <-.
  assert (expires = 1700864000001%Z) as ->.
  { revert Hbody. vm_compute. by intros [= _ <-]. }
  destruct (Hlist Sample.world Sample.config list Sample.alice "0x5157"
              eq_refl eq_refl eq_refl eq_refl eq_refl eq_refl ltac:(by vm_compute))
    as (files & Hres & Hin).
  exists files. unfold st'. rewrite Hres. split; [done|]. eauto.
Defined.

(** * Properties of the storage client *)

(** ** The file name of a download *)

Lemma untilQuote_append name rest :
  quoteFree name = true ->
  StorageClient.untilQuote (name ++ String doubleQuote rest)
  = (name, String doubleQuote rest).
Proof.
  induction name as [|ch name IH]; simpl; [done|].
  intros [Hch Hname]%andb_true_iff. apply negb_true_iff in Hch.
  by rewrite Hch, IH.
Qed.

(** X15: the client gets the file name back from the header the read
    route writes. For a name without a double quote, what [downloadFile]
    takes from [Content-Disposition] is the name itself, and [download]
    when the name is empty. *)
Theorem filename_survives_the_header name :
  quoteFree name = true ->
  StorageClient.filenameOf (Some (contentDisposition name))
  = if String.eqb name "" then "download" else name.
Proof.
  intros Hfree. unfold StorageClient.filenameOf, contentDisposition.
  simpl. unfold StorageClient.matchFilenameHere. simpl.
  rewrite (untilQuote_append name "" Hfree).
  by destruct name.
Qed.

Lemma filename_survives_witness :
  StorageClient.filenameOf (Some (contentDisposition "hello.txt")) = "hello.txt".
Proof. exact (filename_survives_the_header "hello.txt" eq_refl). Defined.

(** A name with a double quote comes back cut at the quote. *)
Example filename_cut_at_a_quote :
  StorageClient.filenameOf
    (Some (contentDisposition (String "a" (String doubleQuote "b"))))
  = "a".
Proof. reflexivity. Qed.

(** ** The client's requests and the server's checks *)

Section ClientAndServer.

Variable E : StorageClient.Surroundings.
Variable cfg : Config.

Hypothesis account_wellFormed : StorageClient.wellFormed (StorageClient.account E).

Lemma present_address : present (Some (StorageClient.address (StorageClient.account E))) = Some (StorageClient.address (StorageClient.account E)).
Proof.
  destruct account_wellFormed as [Haddr _]. simpl.
  by destruct (String.eqb_spec (StorageClient.address (StorageClient.account E)) "").
Qed.

Lemma present_signature message :
  present (Some (StorageClient.signMessage (StorageClient.account E) message)) = Some (StorageClient.signMessage (StorageClient.account E) message).
Proof.
  destruct account_wellFormed as [_ Hsig]. simpl.
  by destruct (String.eqb_spec (StorageClient.signMessage (StorageClient.account E) message) ""); [destruct (Hsig message)|].
Qed.

(** With a signature that verifies, a signed route gets past its first
    three answers. *)
Lemma signedRoute_authenticated W op fileKey c d walletAddress signature :
  present (walletAddressHeader c) = Some walletAddress ->
  present (signatureHeader c) = Some signature ->
  verifyMessage W walletAddress (canonicalMessage op fileKey) signature = Returns true ->
  status (signedRoute W op fileKey c d).2 <> 400%Z
  /\ status (signedRoute W op fileKey c d).2 <> 401%Z.
Proof.
  intros Hw Hs Hv.
  destruct op; simpl;
    unfold download, Storage.listFiles, fileInfo, Storage.deleteFile, renew,
      signatureRejection, canonicalMessage in *;
    rewrite Hw, Hs, Hv; repeat case_match; simpl; done.
Qed.

(** What the server answers a call of the client that is signed over the
    message of its route. *)
Lemma client_request_authenticated W st m p op fileKey payment :
  StorageClient.trusts W (StorageClient.account E) ->
  let c := StorageClient.request E m p
             (Some (StorageClient.signMessage (StorageClient.account E) (canonicalMessage op fileKey))) payment in
  signedRequest c = Some (op, fileKey) ->
  status (fetch W cfg c st).2 <> 400%Z /\ status (fetch W cfg c st).2 <> 401%Z.
Proof.
  intros Htrust c Hsigned.
  destruct (fetch_cases W cfg c st) as [(_ & _ & ->)|[_ ->]]; [done|].
  rewrite (routes_signed W cfg c op fileKey Hsigned), onLedger_pair. simpl.
  apply (signedRoute_authenticated W op fileKey c (db st)
           (StorageClient.address (StorageClient.account E)) (StorageClient.signMessage (StorageClient.account E) (canonicalMessage op fileKey))).
  - apply present_address.
  - apply present_signature.
  - apply Htrust.
Qed.

(** The route each call of the client is served by. *)
Lemma signedRequest_of_call fileKey signature payment :
  fileKey <> "" ->
  signedRequest (StorageClient.request E GET ("/file/" ++ fileKey) signature payment)
  = Some (ReadFile, fileKey)
  /\ signedRequest (StorageClient.request E GET ("/file-info/" ++ fileKey) signature payment)
     = Some (FileInformation, fileKey)
  /\ signedRequest (StorageClient.request E DELETE ("/file/" ++ fileKey) signature payment)
     = Some (DeleteFile, fileKey)
  /\ signedRequest (StorageClient.request E POST ("/renew/" ++ fileKey) signature payment)
     = Some (RenewFile, fileKey)
  /\ signedRequest (StorageClient.request E GET "/files" signature payment)
     = Some (ListFiles, "").
Proof.
  intros Hne. unfold signedRequest. simpl.
  rewrite (param_append "/file/" fileKey Hne).
  rewrite (param_append "/file-info/" fileKey Hne).
  rewrite (param_append "/renew/" fileKey Hne).
  by repeat split.
Qed.

End ClientAndServer.

(** X16: the client signs what the server checks. When the server's
    verifier accepts the account's signatures, none of the client's four
    signed calls for a key, read, list, metadata and delete, is refused
    with 400 or with 401: each request carries both headers and a
    signature over the very message its route verifies. *)
Theorem client_calls_pass_the_signature_check E cfg W st fileKey :
  StorageClient.wellFormed (StorageClient.account E) ->
  StorageClient.reaches E 0 = Some W ->
  StorageClient.trusts W (StorageClient.account E) ->
  fileKey <> "" ->
  let passes f := refusal f <> Some 400%Z /\ refusal f <> Some 401%Z in
  (forall f, (StorageClient.downloadFile E cfg fileKey st).2
             = StorageClient.DownloadFailure f -> passes f)
  /\ (forall f, (StorageClient.listFiles E cfg st).2
                = StorageClient.ListFailure f -> passes f)
  /\ (forall f, (StorageClient.getFileInfo E cfg fileKey st).2
                = StorageClient.InfoFailure f -> passes f)
  /\ (forall f, (StorageClient.deleteFile E cfg fileKey st).2
                = StorageClient.DeleteFailure f -> passes f).
Proof.
  intros Hwf Hreach Htrust Hne passes.
  assert (forall m p op key signature,
             signedRequest (StorageClient.request E m p (Some signature) None)
             = Some (op, key) ->
             signature = StorageClient.signMessage (StorageClient.account E)
                           (canonicalMessage op key) ->
             forall label,
               passes (StorageClient.Refused label
                         (fetch W cfg (StorageClient.request E m p (Some signature) None)
                            st).2)) as Hpass.
  { intros m p op key signature Hsigned -> label. unfold passes. simpl.
    destruct (client_request_authenticated E cfg Hwf W st m p op key None Htrust Hsigned)
      as [H400 H401].
    split; congruence. }
  split; [|split; [|split]]; intros f.
  - unfold StorageClient.downloadFile, StorageClient.send. rewrite Hreach.
    destruct (fetch W cfg _ st) as [st' res] eqn:Hres. simpl.
    destruct (negb (StorageClient.ok res)); [|by destruct (body res)].
    intros [= <-].
    pose proof (Hpass GET ("/file/" ++ fileKey) ReadFile fileKey _
                  (proj1 (signedRequest_of_call E fileKey _ None Hne)) eq_refl
                  "Download failed") as H.
    simpl (canonicalMessage _ _) in H. by rewrite Hres in H.
  - unfold StorageClient.listFiles, StorageClient.send. rewrite Hreach.
    destruct (fetch W cfg _ st) as [st' res] eqn:Hres. simpl.
    destruct (negb (StorageClient.ok res)); [|by destruct (body res)].
    intros [= <-].
    pose proof (Hpass GET "/files" ListFiles "" _
                  (proj2 (proj2 (proj2 (proj2
                     (signedRequest_of_call E fileKey _ None Hne))))) eq_refl
                  "List failed") as H.
    simpl (canonicalMessage _ _) in H. by rewrite Hres in H.
  - unfold StorageClient.getFileInfo, StorageClient.send. rewrite Hreach.
    destruct (fetch W cfg _ st) as [st' res] eqn:Hres. simpl.
    destruct (negb (StorageClient.ok res)); [|done].
    intros [= <-].
    pose proof (Hpass GET ("/file-info/" ++ fileKey) FileInformation fileKey _
                  (proj1 (proj2 (signedRequest_of_call E fileKey _ None Hne))) eq_refl
                  "Get info failed") as H.
    simpl (canonicalMessage _ _) in H. by rewrite Hres in H.
  - unfold StorageClient.deleteFile, StorageClient.send. rewrite Hreach.
    destruct (fetch W cfg _ st) as [st' res] eqn:Hres. simpl.
    destruct (negb (StorageClient.ok res)); [|done].
    intros [= <-].
    pose proof (Hpass DELETE ("/file/" ++ fileKey) DeleteFile fileKey _
                  (proj1 (proj2 (proj2 (signedRequest_of_call E fileKey _ None Hne))))
                  eq_refl "Delete failed") as H.
    simpl (canonicalMessage _ _) in H. by rewrite Hres in H.
Qed.

(** Bob's client asks to delete Alice's file: refused with 403, not for
    its signature. *)
Lemma client_calls_witness :
  exists f,
    (StorageClient.deleteFile (ClientSample.around ClientSample.bob) Sample.config
       Sample.helloKey Sample.state).2 = StorageClient.DeleteFailure f
    /\ refusal f = Some 403%Z
    /\ refusal f <> Some 401%Z.
Proof.
  eexists. split; [by vm_compute|]. split; [reflexivity|].
  refine (proj2 (proj2 (proj2 (proj2
            (client_calls_pass_the_signature_check
               (ClientSample.around ClientSample.bob) Sample.config Sample.world
               Sample.state Sample.helloKey _ eq_refl _ _))) _ _)).
  - split; [discriminate | intros message; discriminate].
  - by intros message.
  - discriminate.
  - by vm_compute.
Defined.

(** ** Calls of the client, end to end *)




(** The first request of [renewFile] carries no payment and is answered
    with the challenge. *)
Lemma client_renew_first_attempt E cfg W st fileKey signature :
  let c := StorageClient.request E POST ("/renew/" ++ fileKey) (Some signature) None in
  fetch W cfg c st = (st, json (ChallengeBody (challengeOf cfg)) 402).
Proof.
  intros c. apply fetch_priced_unsettled; [|done].
  by apply (renew_request_priced c fileKey).
Qed.

(** What [renewFile] comes to once its first request has been answered:
    the second request, with the payment the wallet signs. *)
Lemma client_renew_unfold E cfg W1 st fileKey :
  StorageClient.reaches E 0 = Some W1 ->
  StorageClient.renewFile E cfg fileKey st
  = StorageClient.handlePaymentAndRenew E cfg
      (json (ChallengeBody (challengeOf cfg)) 402) ("/renew/" ++ fileKey)
      (StorageClient.signMessage (StorageClient.account E) ("renew:" ++ fileKey)) st.
Proof.
  intros Hreach. unfold StorageClient.renewFile, StorageClient.send.
  rewrite Hreach. by rewrite client_renew_first_attempt.
Qed.

(** X18: the payment handshake of a renewal, end to end. The client's
    first request is answered 402 and changes nothing; it has the wallet
    sign a payment for the challenge and sends the request once more.
    When the facilitator settles that payment and the account owns the
    file, the call succeeds with the old expiry and the new one,
    [max(now, old)] moved on by ten days at the server of the second
    request, and the ledger holds the record with the new expiry. *)
Theorem client_renews_with_one_payment E cfg W1 W2 st fileKey record proof :
  StorageClient.wellFormed (StorageClient.account E) ->
  StorageClient.reaches E 0 = Some W1 ->
  StorageClient.reaches E 1 = Some W2 ->
  StorageClient.trusts W2 (StorageClient.account E) ->
  fileKey <> "" ->
  StorageClient.createPaymentPayload E (challengeOf cfg) = Returns proof ->
  settles W2 proof = true ->
  getFile (db st) fileKey = Some record ->
  isOwner (db st) fileKey (StorageClient.address (StorageClient.account E)) = true ->
  let newExpires := addDays (timeZone W2) (Z.max (clock W2 0) (expiresAt record)) 10 in
  StorageClient.renewFile E cfg fileKey st
  = ({| db := <[fileKey := withExpiresAt newExpires record]> (db st);
        paidAddresses := paidAddresses st |},
     StorageClient.Renewed (Some (expiresAt record)) (Some newExpires)).
Proof.
  intros Hwf Hr1 Hr2 Htrust Hne Hpay Hsettles Hget Hown newExpires.
  rewrite (client_renew_unfold E cfg W1 st fileKey Hr1).
  unfold StorageClient.handlePaymentAndRenew, StorageClient.send. simpl.
  rewrite Hpay, Hr2.
  set (c := StorageClient.request E POST ("/renew/" ++ fileKey) _ (Some proof)).
  assert (fetch W2 cfg c st = onLedger (renew W2 fileKey c) st) as ->.
  { rewrite fetch_priced_settled.
    - by rewrite (routes_renew W2 cfg c fileKey eq_refl eq_refl Hne).
    - by apply (renew_request_priced c fileKey).
    - unfold unsettled. simpl. by rewrite Hsettles. }
  rewrite onLedger_pair.
  rewrite (renew_by_owner W2 fileKey c (db st)
             (StorageClient.address (StorageClient.account E))
             (StorageClient.signMessage (StorageClient.account E) ("renew:" ++ fileKey))
             record); try done.
  - apply (present_address E Hwf).
  - apply (present_signature E Hwf).
Qed.

(** Alice's client renews her file. *)
Lemma client_renews_witness :
  (StorageClient.renewFile (ClientSample.around ClientSample.alice) Sample.config
     Sample.helloKey Sample.state).2
  = StorageClient.Renewed (Some 1700863999000%Z) (Some 1701727999000%Z).
Proof.
  rewrite (client_renews_with_one_payment
             (ClientSample.around ClientSample.alice) Sample.config
             Sample.world Sample.world Sample.state Sample.helloKey
             Sample.helloRecord "proof"); try done.
Defined.

(** X19: the client does not renew without a payment that settles, and
    has its wallet sign a payment before it learns that it is not the
    owner. With a wallet that cannot sign the payment the call fails on
    the exception after one request; with a payment the facilitator does
    not settle it is refused with the 402 of the second request; and an
    account that does not own the file, its signed payment accepted, is
    refused with 403 under the label of a failed payment. In all three
    the server's state is as it was. *)
Theorem client_renewal_refused E cfg W1 W2 st fileKey :
  StorageClient.wellFormed (StorageClient.account E) ->
  StorageClient.reaches E 0 = Some W1 ->
  StorageClient.reaches E 1 = Some W2 ->
  StorageClient.trusts W2 (StorageClient.account E) ->
  fileKey <> "" ->
  (StorageClient.createPaymentPayload E (challengeOf cfg) = Throws ->
   StorageClient.renewFile E cfg fileKey st
   = (st, StorageClient.RenewFailure StorageClient.Raised))
  /\ (forall proof,
        StorageClient.createPaymentPayload E (challengeOf cfg) = Returns proof ->
        settles W2 proof = false ->
        StorageClient.renewFile E cfg fileKey st
        = (st, StorageClient.RenewFailure
                 (StorageClient.Refused "Payment failed"
                    (json (ChallengeBody (challengeOf cfg)) 402))))
  /\ (forall proof,
        StorageClient.createPaymentPayload E (challengeOf cfg) = Returns proof ->
        settles W2 proof = true ->
        is_Some (getFile (db st) fileKey) ->
        isOwner (db st) fileKey (StorageClient.address (StorageClient.account E)) = false ->
        StorageClient.renewFile E cfg fileKey st
        = (st, StorageClient.RenewFailure
                 (StorageClient.Refused "Payment failed" (failure AccessDenied 403)))).
Proof.
  intros Hwf Hr1 Hr2 Htrust Hne.
  rewrite (client_renew_unfold E cfg W1 st fileKey Hr1).
  unfold StorageClient.handlePaymentAndRenew, StorageClient.send. simpl.
  split; [by intros ->|]. split; intros proof -> Hsettles; rewrite Hr2.
  - rewrite fetch_priced_unsettled; [done| |].
    + by apply (renew_request_priced _ fileKey).
    + unfold unsettled. simpl. by rewrite Hsettles.
  - intros [record Hget] Hown.
    set (c := StorageClient.request E POST ("/renew/" ++ fileKey) _ (Some proof)).
    assert (fetch W2 cfg c st = (st, failure AccessDenied 403)) as ->; [|done].
    rewrite fetch_priced_settled.
    + rewrite (routes_renew W2 cfg c fileKey eq_refl eq_refl Hne).
      apply onLedger_unchanged.
      unfold renew, signatureRejection, canonicalMessage.
      cbn [walletAddressHeader signatureHeader StorageClient.request c].
      rewrite (present_address E Hwf), (present_signature E Hwf).
      by rewrite (Htrust ("renew:" ++ fileKey)), Hget, Hown.
    + by apply (renew_request_priced c fileKey).
    + unfold unsettled. simpl. by rewrite Hsettles.
Qed.

(** Bob's client tries to renew Alice's file, and a client without
    funds its own. *)
Lemma client_renewal_refused_witness :
  StorageClient.renewFile (ClientSample.around ClientSample.bob) Sample.config
    Sample.helloKey Sample.state
  = (Sample.state,
     StorageClient.RenewFailure
       (StorageClient.Refused "Payment failed" (failure AccessDenied 403)))
  /\ StorageClient.renewFile (ClientSample.broke ClientSample.alice) Sample.config
       Sample.helloKey Sample.state
     = (Sample.state, StorageClient.RenewFailure StorageClient.Raised).
Proof.
  split.
  - refine (proj2 (proj2 (client_renewal_refused
                            (ClientSample.around ClientSample.bob) Sample.config
                            Sample.world Sample.world Sample.state Sample.helloKey
                            _ eq_refl eq_refl _ _)) "proof" eq_refl eq_refl _ _).
    + split; [discriminate | intros message; discriminate].
    + by intros message.
    + discriminate.
    + eexists. by vm_compute.
    + by vm_compute.
  - refine (proj1 (client_renewal_refused
                     (ClientSample.broke ClientSample.alice) Sample.config
                     Sample.world Sample.world Sample.state Sample.helloKey
                     _ eq_refl eq_refl _ _) eq_refl).
    + split; [discriminate | intros message; discriminate].
    + by intros message.
    + discriminate.
Defined.

(** * Properties of the command line and of the configuration *)

(** X20: the display of the time left rounds down and agrees with the
    server on what is expired. [getTimeRemaining] says EXPIRED exactly
    when the expiry is before the clock reading, the comparison
    [isExpired] makes; otherwise it shows whole days and hours [d] and
    [h] with [h] below 24 and [d] days [h] hours no more than the time
    left and less than an hour short of it: in green with the days when
    a day or more is left, in yellow with the hours alone when an hour or
    more is left, and in red, under an hour, otherwise. *)
Theorem time_remaining_rounds_down now expires :
  (Cli.getTimeRemaining now expires = (Cli.Red, "EXPIRED") <-> (expires < now)%Z)
  /\ ((now <= expires)%Z ->
      exists d h,
        (0 <= d /\ 0 <= h < 24)%Z
        /\ (d * msPerDay + h * 3600000 <= expires - now
            < d * msPerDay + (h + 1) * 3600000)%Z
        /\ Cli.getTimeRemaining now expires
           = if (0 <? d)%Z
             then (Cli.Green, numberToString d ++ "d " ++ numberToString h ++ "h")
             else if (0 <? h)%Z then (Cli.Yellow, numberToString h ++ "h")
             else (Cli.Red, "< 1h")).
Proof.
  unfold Cli.getTimeRemaining.
  change (1000 * 60 * 60 * 24)%Z with msPerDay.
  change (1000 * 60 * 60)%Z with 3600000%Z.
  split.
  - destruct (Z.ltb_spec (expires - now) 0); [split; [lia|done]|].
    split; [|lia]. by repeat case_match.
  - intros Hlive. destruct (Z.ltb_spec (expires - now) 0); [lia|].
    exists ((expires - now) / msPerDay)%Z,
           ((expires - now) mod msPerDay / 3600000)%Z.
    assert (0 < msPerDay)%Z as Hday by done.
    pose proof (Z.div_mod (expires - now) msPerDay ltac:(lia)) as Hdm.
    pose proof (Z.mod_pos_bound (expires - now) msPerDay Hday) as Hmod.
    pose proof (Z.div_pos (expires - now) msPerDay ltac:(lia) Hday) as Hd.
    set (r := ((expires - now) mod msPerDay)%Z) in *.
    pose proof (Z.div_mod r 3600000 ltac:(lia)) as Hhm.
    pose proof (Z.mod_pos_bound r 3600000 ltac:(lia)) as Hhmod.
    pose proof (Z.div_pos r 3600000 ltac:(lia) ltac:(lia)) as Hh.
    assert (r / 3600000 < 24)%Z
      by (apply Z.div_lt_upper_bound; unfold msPerDay in *; lia).
    split; [lia|]. split; [|done]. unfold msPerDay in *. lia.
Qed.

(** A millisecond past the expiry the file shows as expired; 49 hours
    and a bit ahead of it, as 2 days 1 hour. *)
Lemma time_remaining_witness :
  Cli.getTimeRemaining 1700000000001 1700000000000 = (Cli.Red, "EXPIRED")
  /\ Cli.getTimeRemaining 1700000000000 (1700000000000 + 49 * 3600000 + 5000)
     = (Cli.Green, "2d 1h").
Proof.
  split; [|reflexivity].
  by apply (proj1 (time_remaining_rounds_down 1700000000001 1700000000000)).
Defined.

Lemma requireEnv_given env variable :
  Environment.requireEnv env variable
  = if Environment.given env variable
    then Environment.Ok (default "" (env !! variable))
    else Environment.MissingRequired variable.
Proof.
  unfold Environment.requireEnv, Environment.given.
  destruct (env !! variable) as [value|]; [|done]. simpl.
  by destruct (String.eqb value "").
Qed.

Lemma optionalEnv_not_empty env variable defaultValue :
  defaultValue <> "" -> Environment.optionalEnv env variable defaultValue <> "".
Proof.
  intros Hdef. unfold Environment.optionalEnv, orElse.
  destruct (env !! variable) as [value|]; [|done].
  by destruct (String.eqb_spec value "").
Qed.

(** X21: the server's configuration loads exactly when the six required
    variables are set to texts that are not empty; otherwise loading
    throws for the first of them, in the order the configuration reads
    them, that is unset or empty. In a configuration that loaded no text
    is empty: an optional variable that is unset, or set to the empty
    text, has its default. *)
Theorem configuration_needs_six_variables env :
  (firstMissing env = None <-> exists settings, Environment.load env = Environment.Ok settings)
  /\ (forall variable,
        firstMissing env = Some variable
        <-> Environment.load env = Environment.MissingRequired variable)
  /\ (forall settings,
        Environment.load env = Environment.Ok settings ->
        Forall (fun text => text <> "")
          [ Environment.portText settings; Environment.accessKeyId settings;
            Environment.secretAccessKey settings; Environment.region settings;
            Environment.bucketName settings; Environment.facilitatorUrl settings;
            Environment.receiving settings; Environment.tokenAddress settings;
            Environment.tokenName settings; Environment.networkChainId settings;
            Environment.price settings; Environment.maxFileSizeText settings;
            Environment.expirationDaysText settings;
            Environment.databasePath settings; Environment.novaApiRpc settings ]).
Proof.
  unfold firstMissing, Environment.load, Environment.required, Environment.bind.
  rewrite !requireEnv_given. simpl.
  destruct (Environment.given env "AWS_ACCESS_KEY_ID") eqn:H1; simpl;
    [|by repeat split; try intros [? ?]; try intros; simplify_eq].
  destruct (Environment.given env "AWS_SECRET_ACCESS_KEY") eqn:H2; simpl;
    [|by repeat split; try intros [? ?]; try intros; simplify_eq].
  destruct (Environment.given env "S3_BUCKET_NAME") eqn:H3; simpl;
    [|by repeat split; try intros [? ?]; try intros; simplify_eq].
  destruct (Environment.given env "FACILITATOR_URL") eqn:H4; simpl;
    [|by repeat split; try intros [? ?]; try intros; simplify_eq].
  destruct (Environment.given env "RECEIVING_ADDRESS") eqn:H5; simpl;
    [|by repeat split; try intros [? ?]; try intros; simplify_eq].
  destruct (Environment.given env "PAYMENT_TOKEN_ADDRESS") eqn:H6; simpl;
    [|by repeat split; try intros [? ?]; try intros; simplify_eq].
  split; [split; [by eauto|done]|]. split; [done|].
  intros settings [= <-]. simpl.
  assert (forall variable, Environment.given env variable = true ->
                           default "" (env !! variable) <> "") as Hgiven.
  { intros variable. unfold Environment.given.
    destruct (env !! variable) as [value|]; [|done]. simpl.
    by destruct (String.eqb_spec value ""). }
  repeat (apply Forall_cons; split);
    first [ by apply optionalEnv_not_empty
          | by apply Hgiven
          | by case_match
          | by apply Forall_nil ].
Qed.

(** With the six variables and nothing else the configuration loads with
    its defaults; without the bucket name it does not. *)
Lemma configuration_witness :
  (exists settings,
      Environment.load Environment.minimal = Environment.Ok settings
      /\ Environment.price settings = "20000"
      /\ Environment.expirationDaysText settings = "10"
      /\ Environment.networkOf settings = "eip155:324705682")
  /\ Environment.load (delete "S3_BUCKET_NAME" Environment.minimal)
     = Environment.MissingRequired "S3_BUCKET_NAME".
Proof.
  split.
  - destruct (proj1 (proj1 (configuration_needs_six_variables Environment.minimal))
                ltac:(by vm_compute)) as [settings Hload].
    exists settings. split; [done|].
    revert Hload. vm_compute. by intros [= <-].
  - apply (proj1 (proj2 (configuration_needs_six_variables
                           (delete "S3_BUCKET_NAME" Environment.minimal)))).
    by vm_compute.
Defined.
